(** * GeometrieConverter: structural assembly and frustum geometry

    A shallow embedding of [python_scripts/misc.py] and of the database
    element operations of [python_scripts/db_handling.py], followed by the
    properties of these functions.

    Numbers.  The program computes with IEEE binary64 values (numpy
    [float64]).  They are embedded as exact rationals [Q]: [==], [<], [<=]
    of Python are [Qeq_bool], [Qlt_bool], [Qle_bool], and [np.pi] is the
    rational that the binary64 constant denotes.  Rounding, infinities and
    nan are not part of this model; a pandas cell that holds no number is
    [CNaN].  Where numpy would produce a non-finite quotient inside the
    frustum formulas, [Q] has [x / 0 == 0]; the statements about those
    formulas carry hypotheses under which no divisor is zero.

    Tables.  A pandas DataFrame is the list of its rows, top row first; the
    positional index that [reset_index(drop=True)] assigns is the position
    in the list. *)

From stdpp Require Import gmap strings.
From Stdlib Require Import QArith Qabs Lqa.

Local Open Scope string_scope.
Local Open Scope list_scope.
Local Open Scope Q_scope.

(** ** Python values shared by both source files *)

Definition Qlt_bool (x y : Q) : bool := negb (Qle_bool y x).

(** A cell of a table as it is read from the workbook or the database. *)
Inductive Cell : Type :=
| CNum (q : Q)          (* a number *)
| CNaN                  (* None / nan: what [pd.isna] answers True on *)
| CText (s : string).   (* text; [float] rejects it *)

(** [pd.isna] on one cell. *)
Definition isna (c : Cell) : bool :=
  match c with CNaN => true | _ => false end.

(** [float(c)], as [astype(float)] applies it to one cell. *)
Definition to_float (c : Cell) : option Q :=
  match c with CNum q => Some q | _ => None end.

(** [==] on cells; nan is equal to nothing. *)
Definition Cell_eqb (a b : Cell) : bool :=
  match a, b with
  | CNum x, CNum y => Qeq_bool x y
  | CText s, CText u => bool_decide (s = u)
  | _, _ => false
  end.

Inductive Exn : Type :=
| IndexError
| KeyError
| ValueError
| TypeError
| ZeroDivisionError
| ConciveError.

(** [int(x)] on a float: truncation towards zero. *)
Definition int_of_float (q : Q) : Z := Z.quot (Qnum q) (Zpos (Qden q)).

(** The builtin [sum]: start at 0 and add from the left. *)
Definition py_sum (l : list Q) : Q := fold_left Qplus l 0.

Module misc.

(** *** Tables *)

(** A row of a structure table as the workbook delivers it: the columns
    Section, Top [m], Bottom [m], D, top [m], D, bottom [m], t [mm]. *)
Record RawRow : Type := mkRawRow {
  raw_Section : Cell;
  raw_Top : Cell;
  raw_Bottom : Cell;
  raw_D_top : Cell;
  raw_D_bottom : Cell;
  raw_t : Cell
}.

Definition raw_values (r : RawRow) : list Cell :=
  [raw_Section r; raw_Top r; raw_Bottom r; raw_D_top r; raw_D_bottom r; raw_t r].

(** A row of a structure table after the conversion to float.
    [Affiliation] is [None] while the table has no such column;
    [Section] is [None] when the cell is nan, as in a row that
    [add_element] created. *)
Record Row : Type := mkRow {
  Affiliation : option string;
  Section : option Q;
  Top : Q;
  Bottom : Q;
  D_top : Q;
  D_bottom : Q;
  t_mm : Q
}.

(** What [valid_data] hands back: the table it was given, or the table
    converted to float. *)
Inductive DataFrame : Type :=
| Unconverted (data : list RawRow)
| Converted (rows : list Row).

(** The SKIRT table: a structure table without the Section column. *)
Record SkirtRow : Type := mkSkirtRow {
  sk_Affiliation : option string;
  sk_Top : Q;
  sk_Bottom : Q;
  sk_D_top : Q;
  sk_D_bottom : Q;
  sk_t_mm : Q
}.

(** The assembled table: the new Section column in front, the former
    Section column under the name local Section. *)
Record WholeRow : Type := mkWholeRow {
  ws_Section : Z;
  ws_Affiliation : option string;
  ws_local_Section : option Q;
  ws_Top : Q;
  ws_Bottom : Q;
  ws_D_top : Q;
  ws_D_bottom : Q;
  ws_t_mm : Q
}.

Record PointMass : Type := mkPointMass {
  pm_Affiliation : string;
  pm_Elevation : Cell;
  pm_Mass : Q;
  pm_comment : string
}.

(** A row of an added-mass table. *)
Record MassRow : Type := mkMassRow {
  m_Affiliation : option string;
  m_Top : Q;
  m_Bottom : Cell;
  m_Mass : Cell;
  m_comment : Cell
}.

Record RNARow : Type := mkRNARow {
  Identifier : string;
  rna_values : list Cell
}.

(** The single row of a [*_META] table, as far as the assembly reads it. *)
Record MetaRow : Type := mkMetaRow {
  Height_Reference : option string;
  Water_Depth : option Q
}.

(** The Value column of STRUCTURE_META. *)
Inductive MetaValue : Type :=
| VEmpty                (* the empty string *)
| VText (s : string)
| VNum (q : Q).

Record ParamRow : Type := mkParamRow {
  sm_Parameter : string;
  sm_Value : MetaValue
}.

(** *** The workbook: what [ex.read_excel_table] and the dialogs answer *)

Record Workbook : Type := mkWorkbook {
  MP_DATA : list RawRow;
  TP_DATA : list RawRow;
  TOWER_DATA : list RawRow;
  RNA_DATA : list RNARow;
  MP_META : MetaRow;
  TP_META : MetaRow;
  TOWER_META : MetaRow;
  STRUCTURE_META : list ParamRow;
  MP_MASSES : list MassRow;
  TP_MASSES : list MassRow;
  TOWER_MASSES : list MassRow;
  answer_height_reference : string;   (* button of the height-reference dialog *)
  answer_overlap : string             (* button of the overlap dialog *)
}.

(** *** Effects: message boxes, printed lines and written tables *)

Inductive Message : Type :=
| MsgInvalidData (Table : string)
| MsgMisaligned (missaligned_sections : list Z)
| MsgNoRNA
| MsgRNANotInMenu
| MsgHeightReferencesDiffer (mp tp tower : option string)
| MsgHeightReferencesSame (mp tp tower : option string)
| MsgHovering (MP_top TP_bot gap : Q)
| MsgOverlapping (overlap : Q)
| MsgUnderConstruction
| MsgPerfectFit.

Inductive TableData : Type :=
| TRNA (rows : list RNARow)
| TSkirt (rows : list SkirtRow)
| TPointMass (rows : list PointMass)
| TStructure (rows : list WholeRow)
| TMasses (rows : list MassRow)
| TParams (rows : list ParamRow).

Inductive Event : Type :=
| MessageBox (excel_filename : string) (m : Message)
| Print (line : string)
| WriteTable (excel_filename sheet table : string) (data : TableData).

(** How a call ends: with a value, by an early [return], or by an
    exception that nothing catches. *)
Inductive Result (A : Type) : Type :=
| Value (a : A)
| EarlyReturn
| Raise (e : Exn).
Arguments Value {A} a.
Arguments EarlyReturn {A}.
Arguments Raise {A} e.

(** A computation: the events it caused, in order, and how it ended. *)
Record M (A : Type) : Type := mkM {
  events : list Event;
  result : Result A
}.
Arguments mkM {A} events result.
Arguments events {A} m.
Arguments result {A} m.

#[global] Instance M_ret : MRet M := fun A a => mkM [] (Value a).

#[global] Instance M_bind : MBind M := fun A B f m =>
  match result m with
  | Value a => mkM (events m ++ events (f a)) (result (f a))
  | EarlyReturn => mkM (events m) EarlyReturn
  | Raise e => mkM (events m) (Raise e)
  end.

Definition emit (e : Event) : M unit := mkM [e] (Value tt).
Definition early_return {A : Type} : M A := mkM [] EarlyReturn.
Definition raise {A : Type} (e : Exn) : M A := mkM [] (Raise e).

Definition show_message_box (excel_filename : string) (m : Message) : M unit :=
  emit (MessageBox excel_filename m).

Definition write_df_to_table (excel_filename sheet table : string)
    (data : TableData) : M unit :=
  emit (WriteTable excel_filename sheet table data).

(** [l[-1]]. *)
Definition last_item {A : Type} (l : list A) : M A :=
  match last l with
  | Some a => mret a
  | None => raise IndexError
  end.

(** [l[0]]. *)
Definition first_item {A : Type} (l : list A) : M A :=
  match l with
  | a :: _ => mret a
  | [] => raise IndexError
  end.

(** *** valid_data *)

Definition astype_float (r : RawRow) : option Row :=
  s ← to_float (raw_Section r);
  top ← to_float (raw_Top r);
  bot ← to_float (raw_Bottom r);
  dt ← to_float (raw_D_top r);
  db ← to_float (raw_D_bottom r);
  t ← to_float (raw_t r);
  Some (mkRow None (Some s) top bot dt db t).

Definition valid_data (data : list RawRow) : bool * DataFrame :=
  if existsb isna (concat (map raw_values data)) then (false, Unconverted data)
  else
    match mapM astype_float data with
    | Some rows => (true, Converted rows)
    | None => (false, Unconverted data)
    end.

(** *** sanity_check_structure *)

(** [(df["Top [m]"].values[1:] - df["Bottom [m]"].values[:-1]) == 0] *)
Definition height_diff (df : list Row) : list bool :=
  zip_with (fun top bottom => Qeq_bool (top - bottom) 0)
           (drop 1 (map Top df)) (removelast (map Bottom df)).

(** [int(df.iloc[i, 0])]: the first column is Section. *)
Definition iloc_0_int (df : list Row) (i : nat) : M Z :=
  match df !! i with
  | Some r =>
      match Section r with
      | Some q => mret (int_of_float q)
      | None => raise ValueError
      end
  | None => raise IndexError
  end.

Definition sanity_check_structure (excel_filename : string) (df : list Row) : M bool :=
  let height_diff := height_diff df in
  if negb (forallb id height_diff) then
    missaligned_sections ←
      mapM (fun iv => iloc_0_int df (fst iv))
           (List.filter (fun iv => negb (snd iv)) (imap (fun i value => (i, value)) height_diff));
    show_message_box excel_filename (MsgMisaligned missaligned_sections);;
    mret false
  else mret true.

(** *** check_convert_structure *)

(** The first component of what [check_convert_structure] returns is
    either a bool or the function object [sanity_check_structure]. *)
Inductive PyObject : Type :=
| PyBool (b : bool)
| PyFunction (name : string).

(** Truth value, as [all] and [not] take it. *)
Definition truthy (o : PyObject) : bool :=
  match o with
  | PyBool b => b
  | PyFunction _ => true
  end.

Definition check_convert_structure (excel_filename : string) (df : list RawRow)
    (Table : string) : M (PyObject * DataFrame) :=
  let '(success, df) := valid_data df in
  if negb success then
    show_message_box excel_filename (MsgInvalidData Table);;
    mret (PyBool success, df)
  else
    let success := PyFunction "sanity_check_structure" in
    mret (success, df).

(** *** center_of_mass_hollow_frustum *)

Definition np_pi : Q := 884279719003555 # 281474976710656.

Definition volume (r1 r2 h : Q) : Q :=
  (np_pi * h / 3) * (r1 ^ 2 + r1 * r2 + r2 ^ 2).

Definition com_z_rel (r1 r2 h : Q) : Q :=
  let num := r1 ^ 2 + 2 * r1 * r2 + 3 * r2 ^ 2 in
  let den := r1 ^ 2 + r1 * r2 + r2 ^ 2 in
  h * num / (4 * den).

Definition center_of_mass_hollow_frustum (d1 d2 z_bot z_top t : Q) : Q :=
  let h := z_top - z_bot in
  let r1 := d1 / 2 in
  let r2 := d2 / 2 in
  let R1 := r1 + t in
  let R2 := r2 + t in
  let V_outer := volume R1 R2 h in
  let V_inner := volume r1 r2 h in
  let z_outer_rel := com_z_rel R1 R2 h in
  let z_inner_rel := com_z_rel r1 r2 h in
  let z_cm_rel := (z_outer_rel * V_outer - z_inner_rel * V_inner) / (V_outer - V_inner) in
  let z_cm_abs := z_bot + z_cm_rel in
  z_cm_abs.

(** *** calc_weight *)

(** The local [volume] of [calc_weight]. *)
Definition calc_weight_volume (t z_top z_bot d_top d_bot : Q) : Q :=
  let h := Qabs (z_top - z_bot) in
  let d1 := d_top in
  let d2 := d_bot in
  (1 / 3) * np_pi * h / 4 * (
      d1 ^ 2 + d1 * d2 + d2 ^ 2
      - (d1 - 2 * t) ^ 2
      - (d1 - 2 * t) * (d2 - 2 * t)
      - (d2 - 2 * t) ^ 2).

Definition calc_weight (rho t z_top z_bot d_top d_bot : Q) : Q :=
  rho * calc_weight_volume t z_top z_bot d_top d_bot.

(** *** add_element *)

(** The row that [add_element] builds for the part of segment [seg]
    below [z_new]; the cells it does not assign stay nan. *)
Definition new_row (seg : Row) (z_new : Q) : Row :=
  let inter_x_rel := (z_new - Bottom seg) / (Top seg - Bottom seg) in
  let d_inter := (D_top seg - D_bottom seg) * inter_x_rel + D_bottom seg in
  {| Affiliation := Affiliation seg;
     Section := None;
     t_mm := t_mm seg;
     Top := z_new;
     Bottom := Bottom seg;
     D_top := d_inter;
     D_bottom := D_bottom seg |}.

Definition set_Bottom (z : Q) (r : Row) : Row :=
  {| Affiliation := Affiliation r; Section := Section r; Top := Top r;
     Bottom := z; D_top := D_top r; D_bottom := D_bottom r; t_mm := t_mm r |}.

Definition add_element (df : list Row) (z_new : Q) : M (list Row) :=
  if (0 <? length (List.filter
                     (fun r => Qeq_bool (Top r) z_new || Qeq_bool (Bottom r) z_new) df))%nat
  then mret df
  else
    let id_inter :=
      List.filter (fun ir => Qlt_bool z_new (Top (snd ir)) && Qlt_bool (Bottom (snd ir)) z_new)
                  (imap (fun i r => (i, r)) df) in
    match id_inter with
    | [] =>
        emit (Print "interpolation not possible, outside bounds");;
        mret df
    | [(id_inter, seg)] =>
        let new_row := new_row seg z_new in
        (* update original segment *)
        let df := <[id_inter := set_Bottom z_new seg]> df in
        (* insert new row *)
        let df := take (id_inter + 1) df ++ [new_row] ++ drop (id_inter + 1) df in
        mret df
    | _ =>
        emit (Print "interpolation not possible, structure not consecutive");;
        mret df
    end.

(** *** assemble_structure *)

Definition all_same_ignoring_none (values : list (option string)) : bool :=
  let non_none := omap id values in
  (length non_none <=? 1)%nat
  || match non_none with
     | v0 :: _ => forallb (fun v => String.eqb v v0) non_none
     | [] => true
     end.

Definition insert_Affiliation (a : string) (r : Row) : Row :=
  {| Affiliation := Some a; Section := Section r; Top := Top r;
     Bottom := Bottom r; D_top := D_top r; D_bottom := D_bottom r; t_mm := t_mm r |}.

Definition set_Value (name : string) (v : MetaValue) (table : list ParamRow) : list ParamRow :=
  map (fun p => if String.eqb (sm_Parameter p) name then mkParamRow (sm_Parameter p) v else p)
      table.

(** The rows of a table that passed the quality checks.  Arithmetic on a
    table that was not converted is a TypeError; the checks exclude it. *)
Definition float_rows (df : DataFrame) : M (list Row) :=
  match df with
  | Converted rows => mret rows
  | Unconverted _ => raise TypeError
  end.

(** Lines 206-212: quality checks of the single datasets. *)
Definition quality_checks (excel_filename : string) (wb : Workbook)
    : M (list Row * list Row * list Row) :=
  '(sucess_MP, MP_DATA) ← check_convert_structure excel_filename (MP_DATA wb) "MP";
  '(sucess_TP, TP_DATA) ← check_convert_structure excel_filename (TP_DATA wb) "TP";
  '(sucess_TOWER, TOWER_DATA) ← check_convert_structure excel_filename (TOWER_DATA wb) "TOWER";
  if negb (forallb truthy [sucess_MP; sucess_TP; sucess_TOWER]) then early_return
  else
    MP_DATA ← float_rows MP_DATA;
    TP_DATA ← float_rows TP_DATA;
    TOWER_DATA ← float_rows TOWER_DATA;
    mret (MP_DATA, TP_DATA, TOWER_DATA).

(** Lines 214-225: the RNA. *)
Definition select_RNA (excel_filename : string) (wb : Workbook) (RNA_config : string)
    : M unit :=
  if String.eqb RNA_config "" then
    show_message_box excel_filename MsgNoRNA
  else if negb (existsb (String.eqb RNA_config) (map Identifier (RNA_DATA wb))) then
    show_message_box excel_filename MsgRNANotInMenu;;
    early_return
  else
    let RNA := List.filter (fun r => String.eqb (Identifier r) RNA_config) (RNA_DATA wb) in
    write_df_to_table excel_filename "StructureOverview" "RNA" (TRNA RNA).

(** Lines 227-241: height reference handling. *)
Definition height_reference_handling (excel_filename : string) (wb : Workbook)
    (STRUCTURE_META : list ParamRow) : M (list ParamRow) :=
  let WL_ref_MP := Height_Reference (MP_META wb) in
  let WL_ref_MT := Height_Reference (TP_META wb) in
  let WL_ref_TOWER := Height_Reference (TOWER_META wb) in
  if negb (all_same_ignoring_none [WL_ref_MP; WL_ref_MT; WL_ref_TOWER]) then
    show_message_box excel_filename
      (MsgHeightReferencesDiffer WL_ref_MP WL_ref_MT WL_ref_TOWER);;
    let answer := answer_height_reference wb in
    if String.eqb answer "No" then early_return else mret STRUCTURE_META
  else
    v ← first_item (omap id [WL_ref_MP; WL_ref_MT; WL_ref_TOWER]);
    let STRUCTURE_META := set_Value "Height Reference" (VText v) STRUCTURE_META in
    show_message_box excel_filename
      (MsgHeightReferencesSame WL_ref_MP WL_ref_MT WL_ref_TOWER);;
    mret STRUCTURE_META.

(** Lines 243-245: water depth handling. *)
Definition waterdepth_handling (wb : Workbook) (STRUCTURE_META : list ParamRow)
    : list ParamRow :=
  match Water_Depth (MP_META wb) with
  | Some depth => set_Value "Seabed level" (VNum (- depth)) STRUCTURE_META
  | None => STRUCTURE_META
  end.

(** [SKIRT.loc[:, "Affiliation"] = "SKIRT"] and [SKIRT.drop("Section", axis=1)]. *)
Definition skirt_row (r : Row) : SkirtRow :=
  {| sk_Affiliation := Some "SKIRT"; sk_Top := Top r; sk_Bottom := Bottom r;
     sk_D_top := D_top r; sk_D_bottom := D_bottom r; sk_t_mm := t_mm r |}.

Definition skirt_weights (rho : Q) (SKIRT : list SkirtRow) : list Q :=
  map (fun s => calc_weight rho (sk_t_mm s / 1000) (sk_Top s) (sk_Bottom s)
                            (sk_D_top s) (sk_D_bottom s) / 1000) SKIRT.

Definition skirt_heihgts (SKIRT : list SkirtRow) : list Q :=
  map (fun s => center_of_mass_hollow_frustum (sk_D_bottom s) (sk_D_top s) (sk_Bottom s)
                                              (sk_Top s) (sk_t_mm s / 1000)) SKIRT.

(** [sum([m * h ...]) / skirt_weight].  Over an empty skirt both sums are
    the integer 0 and the division raises; over a non-empty one they are
    numpy floats, whose quotient by zero is not finite. *)
Definition skirt_quotient (weights heights : list Q) (skirt_weight : Q) : M Cell :=
  let numerator := py_sum (zip_with Qmult weights heights) in
  if Qeq_bool skirt_weight 0 then
    match weights with
    | [] => raise ZeroDivisionError
    | _ :: _ => mret CNaN
    end
  else mret (CNum (numerator / skirt_weight)).

(** Lines 250-252: extract ranges.  Returns [range_MP[0]] and
    [range_TP[-1]], the only entries read later. *)
Definition extract_ranges (MP_DATA TP_DATA : list Row) : M (Q * Q) :=
  MP_bottom ← last_item (map Bottom MP_DATA);
  let range_MP := map Top MP_DATA ++ [MP_bottom] in
  TP_bottom ← last_item (map Bottom TP_DATA);
  let range_TP := map Top TP_DATA ++ [TP_bottom] in
  range_MP_0 ← first_item range_MP;
  range_TP_last ← last_item range_TP;
  mret (range_MP_0, range_TP_last).

(** Lines 254-309: check and assemble the MP/TP connection.  Returns
    WHOLE_STRUCTURE. *)
Definition assemble_MP_TP (excel_filename : string) (wb : Workbook) (rho : Q)
    (MP_DATA TP_DATA : list Row) (range_MP_0 range_TP_last : Q) : M (list Row) :=
  (* check MP TP connection *)
  if Qlt_bool range_MP_0 range_TP_last then
    show_message_box excel_filename
      (MsgHovering range_MP_0 range_TP_last (range_TP_last - range_MP_0));;
    early_return
  else
    let WHOLE_STRUCTURE := MP_DATA in
    (* Assemble MP TP *)
    let MP_top := range_MP_0 in
    let TP_bot := range_TP_last in
    if Qlt_bool TP_bot MP_top then
      show_message_box excel_filename (MsgOverlapping (- range_TP_last + range_MP_0));;
      let result := answer_overlap wb in
      if String.eqb result "Yes" then
        show_message_box excel_filename MsgUnderConstruction;;
        mret WHOLE_STRUCTURE
      else
        TP_DATA ← add_element TP_DATA MP_top;
        let SKIRT := List.filter (fun r => Qle_bool (Top r) MP_top) TP_DATA in
        let SKIRT := map skirt_row SKIRT in
        let skirt_weights := skirt_weights rho SKIRT in
        let skirt_heihgts := skirt_heihgts SKIRT in
        let skirt_weight := py_sum skirt_weights in
        skirt_center_of_mass ← skirt_quotient skirt_weights skirt_heihgts skirt_weight;
        (* cut TP *)
        let TP_DATA := List.filter (fun r => Qle_bool MP_top (Bottom r)) TP_DATA in
        let WHOLE_STRUCTURE := TP_DATA ++ WHOLE_STRUCTURE in
        let SKIRT_POINTMASS :=
          [ {| pm_Affiliation := "SKIRT"; pm_Elevation := skirt_center_of_mass;
               pm_Mass := skirt_weight; pm_comment := "Skirt" |} ] in
        write_df_to_table excel_filename "StructureOverview" "SKIRT" (TSkirt SKIRT);;
        write_df_to_table excel_filename "StructureOverview" "SKIRT_POINTMASS"
                          (TPointMass SKIRT_POINTMASS);;
        mret WHOLE_STRUCTURE
    else
      show_message_box excel_filename MsgPerfectFit;;
      mret (TP_DATA ++ WHOLE_STRUCTURE).

Definition shift_Row (offset : Q) (r : Row) : Row :=
  {| Affiliation := Affiliation r; Section := Section r; Top := Top r + offset;
     Bottom := Bottom r + offset; D_top := D_top r; D_bottom := D_bottom r;
     t_mm := t_mm r |}.

(** [rename(columns={"Section": "local Section"})], [reset_index(drop=True)]
    and [insert(0, "Section", index.values + 1)]. *)
Definition renumber (WHOLE_STRUCTURE : list Row) : list WholeRow :=
  imap (fun index r =>
          {| ws_Section := Z.of_nat index + 1;
             ws_Affiliation := Affiliation r;
             ws_local_Section := Section r;
             ws_Top := Top r; ws_Bottom := Bottom r;
             ws_D_top := D_top r; ws_D_bottom := D_bottom r;
             ws_t_mm := t_mm r |}) WHOLE_STRUCTURE.

(** Lines 311-321: the tower on top, the new section numbers.  Returns
    tower_offset. *)
Definition add_tower (excel_filename : string) (TOWER_DATA WHOLE_STRUCTURE : list Row)
    : M Q :=
  top ← first_item (map Top WHOLE_STRUCTURE);
  bottom ← last_item (map Bottom TOWER_DATA);
  let tower_offset := top - bottom in
  let TOWER_DATA := map (shift_Row tower_offset) TOWER_DATA in
  let WHOLE_STRUCTURE := TOWER_DATA ++ WHOLE_STRUCTURE in
  let WHOLE_STRUCTURE := renumber WHOLE_STRUCTURE in
  write_df_to_table excel_filename "StructureOverview" "WHOLE_STRUCTURE"
                    (TStructure WHOLE_STRUCTURE);;
  mret tower_offset.

Definition shift_MassRow (offset : Q) (m : MassRow) : MassRow :=
  {| m_Affiliation := m_Affiliation m;
     m_Top := m_Top m + offset;
     m_Bottom := match to_float (m_Bottom m) with
                 | Some b => CNum (b + offset)
                 | None => m_Bottom m
                 end;
     m_Mass := m_Mass m;
     m_comment := m_comment m |}.

Definition insert_mass_Affiliation (a : string) (m : MassRow) : MassRow :=
  {| m_Affiliation := Some a; m_Top := m_Top m; m_Bottom := m_Bottom m;
     m_Mass := m_Mass m; m_comment := m_comment m |}.

(** [sort_values(ascending=False, by=["Top [m]"])]: rows in descending
    order of Top [m]; rows of equal Top [m] are kept in their order here. *)
Fixpoint insert_desc (m : MassRow) (sorted : list MassRow) : list MassRow :=
  match sorted with
  | [] => [m]
  | x :: rest =>
      if Qlt_bool (m_Top x) (m_Top m) then m :: x :: rest
      else x :: insert_desc m rest
  end.

Definition sort_values_desc (l : list MassRow) : list MassRow :=
  foldr insert_desc [] l.

(** Lines 323-341: the added masses. *)
Definition added_masses (excel_filename : string) (wb : Workbook) (tower_offset : Q)
    (STRUCTURE_META : list ParamRow) : M unit :=
  let TOWER_MASSES := map (shift_MassRow tower_offset) (TOWER_MASSES wb) in
  let MP_MASSES := map (insert_mass_Affiliation "MP") (MP_MASSES wb) in
  let TP_MASSES := map (insert_mass_Affiliation "TP") (TP_MASSES wb) in
  let TOWER_MASSES := map (insert_mass_Affiliation "TOWER") TOWER_MASSES in
  let ALL_MASSES := MP_MASSES ++ TP_MASSES ++ TOWER_MASSES in
  let ALL_MASSES := sort_values_desc ALL_MASSES in
  write_df_to_table excel_filename "StructureOverview" "ALL_ADDED_MASSES"
                    (TMasses ALL_MASSES);;
  write_df_to_table excel_filename "StructureOverview" "STRUCTURE_META"
                    (TParams STRUCTURE_META).

Definition blank_Values (STRUCTURE_META : list ParamRow) : list ParamRow :=
  map (fun p => mkParamRow (sm_Parameter p) VEmpty) STRUCTURE_META.

(** Lines 246-341 of [assemble_structure]: everything after the water
    depth handling. *)
Definition assemble_tables (excel_filename : string) (wb : Workbook) (rho : Q)
    (MP_DATA TP_DATA TOWER_DATA : list Row) (STRUCTURE_META : list ParamRow) : M unit :=
  let MP_DATA := map (insert_Affiliation "MP") MP_DATA in
  let TP_DATA := map (insert_Affiliation "TP") TP_DATA in
  let TOWER_DATA := map (insert_Affiliation "TOWER") TOWER_DATA in
  '(range_MP_0, range_TP_last) ← extract_ranges MP_DATA TP_DATA;
  WHOLE_STRUCTURE ← assemble_MP_TP excel_filename wb rho MP_DATA TP_DATA
                                   range_MP_0 range_TP_last;
  tower_offset ← add_tower excel_filename TOWER_DATA WHOLE_STRUCTURE;
  added_masses excel_filename wb tower_offset STRUCTURE_META.

(** [assemble_structure]; [excel_filename] is the base name of
    [excel_caller]. *)
Definition assemble_structure (excel_filename : string) (wb : Workbook) (rho : Q)
    (RNA_config : string) : M unit :=
  let STRUCTURE_META := blank_Values (STRUCTURE_META wb) in
  '(MP_DATA, TP_DATA, TOWER_DATA) ← quality_checks excel_filename wb;
  select_RNA excel_filename wb RNA_config;;
  STRUCTURE_META ← height_reference_handling excel_filename wb STRUCTURE_META;
  let STRUCTURE_META := waterdepth_handling wb STRUCTURE_META in
  assemble_tables excel_filename wb rho MP_DATA TP_DATA TOWER_DATA STRUCTURE_META.

(** How a run of [assemble_structure] ended: it ran to its last line, it
    left through one of the early [return]s, or an exception ended it. *)
Inductive Outcome : Type :=
| Completed
| Aborted
| Raised (e : Exn).

Definition outcome (m : M unit) : Outcome :=
  match result m with
  | Value _ => Completed
  | EarlyReturn => Aborted
  | Raise e => Raised e
  end.

(** The tables a computation wrote, in order: sheet, table, content. *)
Definition written {A : Type} (m : M A) : list (string * string * TableData) :=
  omap (fun e => match e with
                 | WriteTable _ sheet table data => Some (sheet, table, data)
                 | _ => None
                 end) (events m).

Definition messages {A : Type} (m : M A) : list Message :=
  omap (fun e => match e with MessageBox _ msg => Some msg | _ => None end) (events m).

Definition printed {A : Type} (m : M A) : list string :=
  omap (fun e => match e with Print line => Some line | _ => None end) (events m).

End misc.

Module db_handling.

(** *** The database *)

(** A pandas DataFrame with named columns; a row holds one cell per
    column. *)
Record DataFrame : Type := mkDataFrame {
  columns : list string;
  values : list (list Cell)
}.

Inductive Message : Type :=
| MsgAlreadyTaken (new_id : Cell)
| MsgInvalidStructureData
| MsgOverwritten (old_id : string) (new_id : Cell).

(** The SQLite file at [db_path], a table per name, and the message boxes
    shown so far. *)
Record World : Type := mkWorld {
  tables : gmap string DataFrame;
  boxes : list Message
}.

Inductive Res (A : Type) : Type :=
| Val (a : A)
| Exc (e : Exn).
Arguments Val {A} a.
Arguments Exc {A} e.

(** A computation on the database; what was committed before an exception
    stays committed. *)
Record DBM (A : Type) : Type := mkDBM {
  run : World -> Res A * World
}.
Arguments mkDBM {A} run.
Arguments run {A} d w.




Definition lift {A : Type} (r : Res A) : DBM A := mkDBM (fun w => (r, w)).

Definition show_message_box (m : Message) : DBM unit :=
  mkDBM (fun w => (Val tt, mkWorld (tables w) (boxes w ++ [m]))).

(** *** DataFrame access *)

Fixpoint index_of (name : string) (cols : list string) : option nat :=
  match cols with
  | [] => None
  | c :: rest => if String.eqb c name then Some 0%nat else S <$> index_of name rest
  end.

(** [df[name].values] *)
Definition column (name : string) (df : DataFrame) : Res (list Cell) :=
  match index_of name (columns df) with
  | Some i => Val (map (fun row => nth i row CNaN) (values df))
  | None => Exc KeyError
  end.

(** [l[0]] *)
Definition item_0 {A : Type} (l : list A) : Res A :=
  match l with
  | a :: _ => Val a
  | [] => Exc IndexError
  end.

(** [df.drop(columns=[name])] for a column that exists. *)
Definition drop_column (name : string) (df : DataFrame) : DataFrame :=
  match index_of name (columns df) with
  | Some i => mkDataFrame (delete i (columns df)) (map (delete i) (values df))
  | None => df
  end.


(** *** drop_db_table, load_db_table, create_db_table *)


Definition load_db_table (Identifier : string) : DBM DataFrame :=
  mkDBM (fun w =>
           match tables w !! Identifier with
           | None => (Exc ConciveError, w)
           | Some df =>
               let df := if bool_decide ("index" ∈ columns df)
                         then drop_column "index" df else df in
               (Val df, w)
           end).

Inductive IfExists : Type := IfFail | IfReplace | IfAppend.

Definition create_db_table (Identifier : string) (df : DataFrame) (if_exists : IfExists)
    : DBM unit :=
  mkDBM (fun w =>
           match tables w !! Identifier, if_exists with
           | Some _, IfFail => (Exc ConciveError, w)
           | Some old, IfAppend =>
               if bool_decide (columns old = columns df) then
                 (Val tt, mkWorld (<[Identifier := mkDataFrame (columns old)
                                                     (values old ++ values df)]> (tables w))
                                  (boxes w))
               else (Exc ConciveError, w)
           | _, _ => (Val tt, mkWorld (<[Identifier := df]> (tables w)) (boxes w))
           end).

(** *** write_db_element_data *)



(** *** replace_db_element *)




End db_handling.

(** ** [db_handling.py]: the elements and the workbook *)

Module db_elements.
Import db_handling.

(** *** pd.concat *)

(** [pd.concat([a, b], axis=0)]: the columns of [a] followed by the
    columns only [b] has; a cell without a value is nan. *)
Definition concat (a b : DataFrame) : DataFrame :=
  let new_columns :=
    List.filter (fun c => negb (bool_decide (c ∈ columns a))) (columns b) in
  let all_columns := columns a ++ new_columns in
  mkDataFrame all_columns
    (map (fun row => row ++ replicate (length new_columns) CNaN) (values a)
     ++ map (fun row =>
               map (fun c => match index_of c (columns b) with
                             | Some i => nth i row CNaN
                             | None => CNaN
                             end) all_columns)
            (values b)).

(** *** The workbook side *)

(** The calls into the workbook that the element functions make. *)
Inductive ExcelCall : Type :=
| ShowIdentifierInDatabase
| ShowSaved (Identifier : Cell)
| AskDelete (selected_structure : string)
| SetDropdownValues (sheet dropdown : string) (values : list Cell)
| WriteDf (sheet table : string) (df : DataFrame)
| ClearTable (sheet table : string)
| CallDropdownMacro (sheet dropdown value : string).

(** The database together with the calls made so far. *)
Record Session : Type := mkSession {
  world : World;
  calls : list ExcelCall
}.

Record SM (A : Type) : Type := mkSM {
  run_session : Session -> Res A * Session
}.
Arguments mkSM {A} run_session.
Arguments run_session {A} s x.

#[global] Instance SM_ret : MRet SM := fun A a => mkSM (fun s => (Val a, s)).

#[global] Instance SM_bind : MBind SM := fun A B f m =>
  mkSM (fun s =>
          match run_session m s with
          | (Val a, s') => run_session (f a) s'
          | (Exc e, s') => (Exc e, s')
          end).

(** A database computation inside a session. *)
Definition on_db {A : Type} (m : DBM A) : SM A :=
  mkSM (fun s => let '(r, w) := run m (world s) in (r, mkSession w (calls s))).

Definition excel_call (c : ExcelCall) : SM unit :=
  mkSM (fun s => (Val tt, mkSession (world s) (calls s ++ [c]))).

(** *** add_db_element *)

Section Elements.

(** [str(x)] of an identifier that is not text. *)
Variable py_str : Cell -> string.

(** The identifier as a table name and inside an f-string. *)
Definition format_id (Identifier : Cell) : string :=
  match Identifier with
  | CText s => s
  | c => py_str c
  end.

Definition add_db_element (Structure_data added_masses_data Meta_infos : DataFrame)
    : SM bool :=
  META ← on_db (load_db_table "META");
  new_ids ← on_db (lift (column "Identifier" Meta_infos));
  Identifier ← on_db (lift (item_0 new_ids));
  ids ← on_db (lift (column "Identifier" META));
  if existsb (Cell_eqb Identifier) ids then
    excel_call ShowIdentifierInDatabase;;
    mret false
  else
    on_db (create_db_table (format_id Identifier) Structure_data IfFail);;
    on_db (create_db_table (format_id Identifier ++ "__ADDED_MASSES")%string
                           added_masses_data IfFail);;
    let META := concat META Meta_infos in
    on_db (create_db_table "META" META IfReplace);;
    excel_call (ShowSaved Identifier);;
    mret true.

End Elements.

(** *** delete_db_element *)



(** *** load_META, load_DATA, delete_data *)






End db_elements.

(** * Notions used in the statements *)

Import misc.

(** No gap and no overlap inside one structure table: each segment ends
    where the next one below it begins. *)
Definition continuous (df : list Row) : Prop :=
  forall (i : nat) (upper lower : Row),
    df !! i = Some upper -> df !! S i = Some lower -> Bottom upper == Top lower.




(** The diameter on the straight line between the two ends of a segment. *)
Definition d_at (seg : Row) (z : Q) : Q :=
  D_bottom seg + (D_top seg - D_bottom seg) * (z - Bottom seg) / (Top seg - Bottom seg).

(** Rows that agree in every column, numbers compared with [==]. *)
Definition Row_equiv (r s : Row) : Prop :=
  Affiliation r = Affiliation s
  /\ match Section r, Section s with
     | Some x, Some y => x == y
     | None, None => True
     | _, _ => False
     end
  /\ Top r == Top s /\ Bottom r == Bottom s
  /\ D_top r == D_top s /\ D_bottom r == D_bottom s /\ t_mm r == t_mm s.



(** A structure table as a structure should be: continuous, and every
    segment with its top above its bottom. *)
Definition well_formed (df : list Row) : Prop :=
  continuous df /\ Forall (fun r => Bottom r < Top r) df.


(** The table with segment [i] replaced by its two halves around [z]. *)
Definition splice (df : list Row) (i : nat) (seg : Row) (z : Q) : list Row :=
  take i df ++ [set_Bottom z seg; new_row seg z] ++ drop (S i) df.

(** The segment of an indexed row has [z] strictly inside. *)
Definition straddles (z : Q) (ir : nat * Row) : bool :=
  Qlt_bool z (Top ir.2) && Qlt_bool (Bottom ir.2) z.

(** The two selections that [assemble_structure] takes from the TP at the
    top [z] of the MP: the rows that begin at or above [z], and the rows
    that end at or below [z]. *)
Definition cut_above (z : Q) (df : list Row) : list Row :=
  List.filter (fun r => Qle_bool z (Bottom r)) df.

Definition cut_below (z : Q) (df : list Row) : list Row :=
  List.filter (fun r => Qle_bool (Top r) z) df.

(** The names of the tables a run has written, in the order of writing. *)
Definition table_names {A : Type} (m : M A) : list string :=
  map (fun x => snd (fst x)) (written m).

(** Added masses in descending order of Top [m]. *)
Definition descending (l : list MassRow) : Prop :=
  forall (i : nat) (x y : MassRow),
    l !! i = Some x -> l !! S i = Some y -> m_Top y <= m_Top x.


(** *** Example data *)

Definition raw (section top bottom d_top d_bottom t : Q) : RawRow :=
  mkRawRow (CNum section) (CNum top) (CNum bottom) (CNum d_top) (CNum d_bottom) (CNum t).

Definition workbook (mp tp tower : list RawRow) (rna : list RNARow)
    (overlap_answer : string) : Workbook :=
  {| MP_DATA := mp; TP_DATA := tp; TOWER_DATA := tower;
     RNA_DATA := rna;
     MP_META := mkMetaRow (Some "LAT") (Some 30);
     TP_META := mkMetaRow (Some "LAT") None;
     TOWER_META := mkMetaRow None None;
     STRUCTURE_META := [mkParamRow "Height Reference" VEmpty;
                        mkParamRow "Seabed level" VEmpty];
     MP_MASSES := []; TP_MASSES := []; TOWER_MASSES := [];
     answer_height_reference := "Yes";
     answer_overlap := overlap_answer |}.

Definition excel : string := "GeometrieConverter.xlsm".

(** A monopile whose two sections leave the span from 5 to 6 open. *)
Definition MP_with_gap : list RawRow :=
  [raw 1 10 6 5 5 50; raw 2 5 0 5 5 50].

Definition wb_MP_with_gap : Workbook :=
  workbook MP_with_gap [raw 1 12 10 5 5 50] [raw 1 100 20 4 4 30] [] "No".

(** A transition piece that ends below the top of the monopile. *)
Definition wb_TP_inside_MP : Workbook :=
  workbook [raw 1 10 0 5 5 50] [raw 1 8 5 5 5 50] [raw 1 100 20 4 4 30] [] "No".

(** A transition piece that hovers 2 m over the monopile, with an RNA
    selected. *)
Definition wb_hovering : Workbook :=
  workbook [raw 1 10 0 5 5 50] [raw 1 20 12 5 5 50] [raw 1 100 20 4 4 30]
           [mkRNARow "RNA-15MW" [CNum 950]] "No".

(** The overlap of the specification's scenario: MP 10 to 0, TP 12 to 8. *)
Definition wb_overlap : Workbook :=
  workbook [raw 1 10 0 5 5 50] [raw 1 12 8 5 5 50] [raw 1 100 20 4 4 30] [] "No".

(** All height references undefined. *)
Definition wb_no_reference : Workbook :=
  {| MP_DATA := [raw 1 10 0 5 5 50]; TP_DATA := [raw 1 12 10 5 5 50];
     TOWER_DATA := [raw 1 100 20 4 4 30];
     RNA_DATA := [];
     MP_META := mkMetaRow None (Some 30);
     TP_META := mkMetaRow None None;
     TOWER_META := mkMetaRow None None;
     STRUCTURE_META := [mkParamRow "Height Reference" VEmpty;
                        mkParamRow "Seabed level" VEmpty];
     MP_MASSES := []; TP_MASSES := []; TOWER_MASSES := [];
     answer_height_reference := "Yes";
     answer_overlap := "No" |}.

Definition tapered_segment : Row := mkRow None (Some 1) 10 0 6 4 50.




(** A database with the structures MP_A and MP_C, a new META row that
    renames MP_A to MP_B, and structure data with an empty cell. *)
Definition META_example : db_handling.DataFrame :=
  db_handling.mkDataFrame ["Identifier"; "Height Reference"]
    [[CText "MP_A"; CText "LAT"]; [CText "MP_C"; CText "MSL"]].

Definition db_example : db_handling.World :=
  db_handling.mkWorld
    (<["META" := META_example]>
       (<["MP_A" := db_handling.mkDataFrame ["Section"; "Top [m]"; "Bottom [m]"]
                      [[CNum 1; CNum 10; CNum 0]]]>
          (<["MP_A__ADDED_MASSES" := db_handling.mkDataFrame ["Top [m]"] []]> ∅)))
    [].



(** A monopile table with an empty cell. *)
Definition wb_invalid : Workbook :=
  workbook [mkRawRow (CNum 1) (CNum 10) CNaN (CNum 5) (CNum 5) (CNum 50)]
           [raw 1 12 10 5 5 50] [raw 1 100 20 4 4 30] [] "No".

(** Height references that differ, and the dialog answered with No. *)
Definition wb_conflict_No : Workbook :=
  {| MP_DATA := [raw 1 10 0 5 5 50]; TP_DATA := [raw 1 12 10 5 5 50];
     TOWER_DATA := [raw 1 100 20 4 4 30];
     RNA_DATA := [];
     MP_META := mkMetaRow (Some "LAT") (Some 30);
     TP_META := mkMetaRow (Some "MSL") None;
     TOWER_META := mkMetaRow None None;
     STRUCTURE_META := [mkParamRow "Height Reference" VEmpty;
                        mkParamRow "Seabed level" VEmpty];
     MP_MASSES := []; TP_MASSES := []; TOWER_MASSES := [];
     answer_height_reference := "No";
     answer_overlap := "No" |}.


(** The overlap of [wb_overlap], the dialog answered with Yes. *)
Definition wb_grouted : Workbook :=
  workbook [raw 1 10 0 5 5 50] [raw 1 12 8 5 5 50] [raw 1 100 20 4 4 30] [] "Yes".


(** A monopile of two sections, a tapered one on a cylinder. *)
Definition MP_two_sections : list Row :=
  [mkRow None (Some 1) 10 6 5 6 50; mkRow None (Some 2) 6 0 6 6 50].


(** The database of [db_example] before any call into the workbook. *)
Definition session_example : db_elements.Session :=
  db_elements.mkSession db_example [].



(** A new META row with the identifier of a stored structure. *)
Definition Meta_infos_taken : db_handling.DataFrame :=
  db_handling.mkDataFrame ["Identifier"; "Height Reference"] [[CText "MP_C"; CText "LAT"]].

(** Structure data without an empty cell. *)
Definition data_example : db_handling.DataFrame :=
  db_handling.mkDataFrame ["Section"; "Top [m]"; "Bottom [m]"]
    [[CNum 1; CNum 12; CNum 0]].

Definition masses_example : db_handling.DataFrame :=
  db_handling.mkDataFrame ["Top [m]"; "Mass [kg]"] [[CNum 5; CNum 1000]].



(** * Properties *)

(** ** The frustum formulas *)

Section Frustum.









End Frustum.

(** ** The computations of [misc.py] *)

Section Computations.
Context {A B : Type}.
Implicit Types (m : M A) (f : A -> M B).

Lemma bind_Value m f a :
  result m = Value a -> m ≫= f = mkM (events m ++ events (f a)) (result (f a)).
Proof. intros H. unfold mbind, M_bind. rewrite H. reflexivity. Qed.

Lemma bind_Value_inv m f b :
  result (m ≫= f) = Value b ->
  exists a, result m = Value a /\ result (f a) = Value b
            /\ events (m ≫= f) = events m ++ events (f a).
Proof.
  unfold mbind, M_bind.
  destruct (result m) as [a| |e]; simpl; intros H; try discriminate.
  exists a. auto.
Qed.

Lemma mret_bind (a : A) f : mret a ≫= f = f a.
Proof. unfold mbind, M_bind, mret, M_ret. cbn. destruct (f a); reflexivity. Qed.

End Computations.

Lemma Qlt_bool_iff (x y : Q) : Qlt_bool x y = true <-> x < y.
Proof.
  unfold Qlt_bool. rewrite negb_true_iff. split.
  - intros H. apply Qnot_le_lt. intros Hle. apply Qle_bool_iff in Hle. congruence.
  - intros H. destruct (Qle_bool y x) eqn:E; [| reflexivity].
    apply Qle_bool_iff in E. lra.
Qed.

Lemma Qlt_bool_false_iff (x y : Q) : Qlt_bool x y = false <-> y <= x.
Proof.
  unfold Qlt_bool. rewrite negb_false_iff. apply Qle_bool_iff.
Qed.

(** ** add_element *)

Lemma filter_nonempty {A : Type} (f : A -> bool) (l : list A) (x : A) :
  In x l -> f x = true -> (0 <? length (List.filter f l))%nat = true.
Proof.
  intros Hin Hf.
  assert (Hx : In x (List.filter f l)) by (apply filter_In; split; assumption).
  destruct (List.filter f l); [destruct Hx | reflexivity].
Qed.

Lemma new_row_Top (seg : Row) (z_new : Q) :
  Qeq_bool (Top (new_row seg z_new)) z_new = true.
Proof. apply Qeq_bool_iff. reflexivity. Qed.

(** The diameter that [add_element] puts on the cut is the linear one. *)
Lemma new_row_D_top (seg : Row) (z_new : Q) :
  D_top (new_row seg z_new) == d_at seg z_new.
Proof.
  unfold new_row, d_at. cbn [D_top Top Bottom D_bottom].
  unfold Qdiv. ring.
Qed.


Lemma filter_imap_lookup {A : Type} (f : nat * A -> bool) (l : list A) (i : nat) (x : A) :
  In (i, x) (List.filter f (imap (fun i r => (i, r)) l)) -> l !! i = Some x.
Proof.
  intros H. apply filter_In in H. destruct H as [H _].
  apply list_elem_of_In in H. apply elem_of_lookup_imap in H.
  destruct H as (j & y & E & Hj). inversion E; subst. exact Hj.
Qed.

Lemma splice_after_insert {A : Type} (l : list A) (i : nat) (x y n : A) :
  l !! i = Some x ->
  take (i + 1) (<[i := y]> l) ++ [n] ++ drop (i + 1) (<[i := y]> l)
  = take i l ++ [y; n] ++ drop (S i) l.
Proof.
  intros H. pose proof (lookup_lt_Some _ _ _ H) as Hlt.
  replace (i + 1)%nat with (S i) by lia.
  rewrite (take_S_r (<[i := y]> l) i y) by (apply list_lookup_insert_eq; exact Hlt).
  rewrite take_insert_ge by lia.
  rewrite drop_insert_lt by lia.
  rewrite <- app_assoc. reflexivity.
Qed.

(** The three ways [add_element] ends: the table as it is, the table as
    it is after a printed line, or segment [i] cut in two: its own row,
    now ending at [z_new], followed by the new row. *)
Lemma add_element_cases (df : list Row) (z_new : Q) :
  add_element df z_new = mret df
  \/ (exists line, add_element df z_new = mkM [Print line] (Value df))
  \/ (exists i seg,
        df !! i = Some seg /\ Bottom seg < z_new /\ z_new < Top seg
        /\ add_element df z_new
           = mret (take i df ++ [set_Bottom z_new seg; new_row seg z_new] ++ drop (S i) df)).
Proof.
  unfold add_element.
  destruct (0 <? length (List.filter _ df))%nat; [left; reflexivity | right].
  destruct (List.filter _ (imap _ df)) as [|[i seg] [|more rest]] eqn:Hinter.
  - left. eexists. reflexivity.
  - right. exists i, seg.
    assert (Hin : In (i, seg) (List.filter
       (fun ir : nat * Row => Qlt_bool z_new (Top ir.2) && Qlt_bool (Bottom ir.2) z_new)
       (imap (fun (i : nat) (r : Row) => (i, r)) df)))
      by (rewrite Hinter; left; reflexivity).
    pose proof (filter_imap_lookup _ _ _ _ Hin) as Hl.
    apply filter_In in Hin. destruct Hin as [_ Hs]. cbn in Hs.
    apply andb_true_iff in Hs. destruct Hs as [H1 H2].
    apply Qlt_bool_iff in H1, H2.
    repeat split; try assumption.
    rewrite (splice_after_insert df i seg _ _ Hl). reflexivity.
  - left. eexists. reflexivity.
Qed.


(** C8. [add_element] is idempotent: the table it returns for [df] and
    [z_new] is returned unchanged by a second call with the same [z_new];
    and when [z_new] already is the Top [m] or Bottom [m] of a row, the
    first call returns [df] itself, silently. *)
Theorem add_element_idempotent (df : list Row) (z_new : Q) :
  exists df1,
    result (add_element df z_new) = Value df1
    /\ result (add_element df1 z_new) = Value df1
    /\ ((exists r, In r df /\ (Top r == z_new \/ Bottom r == z_new)) ->
        add_element df z_new = mret df).
Proof.
  unfold add_element.
  destruct (0 <? length (List.filter _ df))%nat eqn:Hnode.
  - exists df. rewrite Hnode. repeat split; reflexivity.
  - assert (Hnone : ~ exists r, In r df /\ (Top r == z_new \/ Bottom r == z_new)).
    { intros (r & Hr & Hz).
      rewrite (filter_nonempty _ df r Hr) in Hnode; [discriminate |].
      apply orb_true_iff. destruct Hz as [Hz | Hz]; [left | right];
        apply Qeq_bool_iff; exact Hz. }
    destruct (List.filter _ (imap _ df)) as [|[i seg] [|more rest]] eqn:Hinter.
    + exists df. rewrite Hnode, Hinter. repeat split; try reflexivity.
      intros H. destruct (Hnone H).
    + eexists. split; [reflexivity |]. split; [| intros H; destruct (Hnone H)].
      match goal with |- context [List.filter ?f ?l] =>
        rewrite (filter_nonempty f l (new_row seg z_new)) end.
      * reflexivity.
      * apply in_or_app. right. left. reflexivity.
      * rewrite new_row_Top. reflexivity.
    + exists df. rewrite Hnode, Hinter. repeat split; try reflexivity.
      intros H. destruct (Hnone H).
Qed.

Lemma add_element_idempotent_witness :
  exists df1,
    result (add_element [tapered_segment] 5) = Value df1
    /\ result (add_element df1 5) = Value df1
    /\ ((exists r, In r [tapered_segment] /\ (Top r == 5 \/ Bottom r == 5)) ->
        add_element [tapered_segment] 5 = mret [tapered_segment]).
Proof. exact (add_element_idempotent [tapered_segment] 5). Defined.

(** Wherever [add_element] cuts a tapered segment, the two halves
    disagree on the diameter at the cut: the upper half keeps the old
    bottom diameter, the lower half starts with the interpolated one. *)
Lemma add_element_cut_diameters (seg : Row) (z_new : Q) :
  Bottom seg < z_new -> z_new < Top seg -> ~ D_top seg == D_bottom seg ->
  D_top (new_row seg z_new) == d_at seg z_new
  /\ D_bottom (set_Bottom z_new seg) = D_bottom seg
  /\ ~ D_bottom (set_Bottom z_new seg) == D_top (new_row seg z_new).
Proof.
  intros Hlo Hhi Htaper. split; [apply new_row_D_top |]. split; [reflexivity |].
  cbn [set_Bottom new_row D_bottom D_top Top Bottom].
  set (x := (z_new - Bottom seg) / (Top seg - Bottom seg)).
  assert (Hx : 0 < x).
  { unfold x. apply Qlt_shift_div_l; lra. }
  intros H.
  assert (Hz : (D_top seg - D_bottom seg) * x == 0) by lra.
  apply Qmult_integral in Hz. destruct Hz as [Hz | Hz]; [apply Htaper |]; lra.
Qed.

(** C2. Interpolating z = 5 into the single segment from 10 to 0 with
    diameters 6 (top) and 4 (bottom): the row below the cut gets the
    interpolated diameter 5 at its top, but the row above the cut keeps
    the diameter 4 of the old bottom end, so the diameters of the two
    halves differ at the cut (4 above, 5 below). *)
Theorem add_element_upper_half_keeps_bottom_diameter :
  exists upper lower,
    add_element [tapered_segment] 5 = mret [upper; lower]
    /\ Row_equiv upper (mkRow None (Some 1) 10 5 6 4 50)
    /\ Row_equiv lower (mkRow None None 5 0 5 4 50)
    /\ D_top lower == d_at tapered_segment 5
    /\ ~ D_bottom upper == d_at tapered_segment 5
    /\ ~ Row_equiv upper (mkRow None (Some 1) 10 5 6 5 50).
Proof.
  eexists. eexists. split; [reflexivity |].
  unfold Row_equiv. cbn.
  repeat split; try reflexivity; try discriminate.
  intros (_ & _ & _ & _ & _ & H & _). discriminate H.
Qed.

(** ** The quality checks *)

Lemma height_diff_cons (a b : Row) (l : list Row) :
  height_diff (a :: b :: l) = Qeq_bool (Top b - Bottom a) 0 :: height_diff (b :: l).
Proof. reflexivity. Qed.

Lemma height_diff_continuous (df : list Row) :
  forallb id (height_diff df) = true <-> continuous df.
Proof.
  induction df as [|a [|b l] IH].
  - split; [| reflexivity]. intros _ i u w H. discriminate.
  - split; [| reflexivity]. intros _ i u w H1 H2.
    destruct i; discriminate.
  - rewrite height_diff_cons. cbn [forallb id]. rewrite andb_true_iff, IH.
    rewrite Qeq_bool_iff. split.
    + intros [Hab Hc] [|i] u w H1 H2.
      * cbn in H1, H2. inversion H1; inversion H2; subst. lra.
      * exact (Hc i u w H1 H2).
    + intros Hc. split.
      * specialize (Hc 0%nat a b eq_refl eq_refl). lra.
      * intros i u w H1 H2. exact (Hc (S i) u w H1 H2).
Qed.

(** [sanity_check_structure] answers True exactly on the continuous
    tables. *)
Lemma sanity_check_structure_continuous (f : string) (df : list Row) :
  result (sanity_check_structure f df) = Value true <-> continuous df.
Proof.
  rewrite <- height_diff_continuous. unfold sanity_check_structure.
  destruct (forallb id (height_diff df)); cbn [negb].
  - split; reflexivity.
  - split; [| discriminate].
    unfold mbind, M_bind.
    destruct (result (mapM _ _)); cbn; discriminate.
Qed.

Lemma valid_data_cases (data : list RawRow) :
  (exists rows, valid_data data = (true, Converted rows))
  \/ valid_data data = (false, Unconverted data).
Proof.
  unfold valid_data. destruct (existsb isna _); [right; reflexivity |].
  destruct (mapM astype_float data) as [rows|]; [left; eauto | right; reflexivity].
Qed.

(** [check_convert_structure] never runs [sanity_check_structure]: a
    table of numbers is handed back with a function object, which counts
    as true, in the place of the check's answer. *)
Lemma check_convert_structure_cases (f : string) (data : list RawRow) (T : string) :
  (exists rows, valid_data data = (true, Converted rows)
     /\ check_convert_structure f data T
        = mret (PyFunction "sanity_check_structure", Converted rows))
  \/ (valid_data data = (false, Unconverted data)
      /\ check_convert_structure f data T
         = mkM [MessageBox f (MsgInvalidData T)]
               (Value (PyBool false, Unconverted data))).
Proof.
  unfold check_convert_structure.
  destruct (valid_data_cases data) as [[rows H] | H]; rewrite H; simpl.
  - left. exists rows. split; reflexivity.
  - right. split; reflexivity.
Qed.

(** C1. The monopile table with sections 10..6 and 5..0 leaves a gap.
    [check_convert_structure] accepts it without any report, although
    [sanity_check_structure] would report section 1 and answer False; the
    assembly run on a workbook with this monopile runs to its end and
    writes the assembled table. *)
Theorem check_convert_structure_accepts_gap :
  exists rows,
    check_convert_structure excel MP_with_gap "MP"
    = mret (PyFunction "sanity_check_structure", Converted rows)
    /\ truthy (PyFunction "sanity_check_structure") = true
    /\ ~ continuous rows
    /\ sanity_check_structure excel rows
       = mkM [MessageBox excel (MsgMisaligned [1%Z])] (Value false)
    /\ outcome (assemble_structure excel wb_MP_with_gap 7850 "") = Completed
    /\ map fst (written (assemble_structure excel wb_MP_with_gap 7850 ""))
       = [("StructureOverview", "WHOLE_STRUCTURE");
          ("StructureOverview", "ALL_ADDED_MASSES");
          ("StructureOverview", "STRUCTURE_META")].
Proof.
  eexists. split; [reflexivity |]. split; [reflexivity |]. split.
  - intros Hc. specialize (Hc 0%nat _ _ eq_refl eq_refl). discriminate Hc.
  - split; [reflexivity |]. split; vm_compute; reflexivity.
Qed.


Lemma quality_checks_events (f : string) (wb : Workbook) (x : list Row * list Row * list Row) :
  result (quality_checks f wb) = Value x -> events (quality_checks f wb) = [].
Proof.
  unfold quality_checks.
  destruct (check_convert_structure_cases f (MP_DATA wb) "MP")
    as [(r1 & V1 & E1) | (V1 & E1)];
  destruct (check_convert_structure_cases f (TP_DATA wb) "TP")
    as [(r2 & V2 & E2) | (V2 & E2)];
  destruct (check_convert_structure_cases f (TOWER_DATA wb) "TOWER")
    as [(r3 & V3 & E3) | (V3 & E3)];
  rewrite E1, E2, E3; cbn; intros H; try discriminate. reflexivity.
Qed.

(** ** assemble_structure *)

(** A run that passes the quality checks, the RNA selection and the
    height reference handling goes on with [assemble_tables]. *)
Lemma assemble_structure_passes (f : string) (wb : Workbook) (rho : Q) (cfg : string)
    (mp tp tower : list Row) (sm : list ParamRow) :
  result (quality_checks f wb) = Value (mp, tp, tower) ->
  result (select_RNA f wb cfg) = Value tt ->
  result (height_reference_handling f wb (blank_Values (STRUCTURE_META wb))) = Value sm ->
  let rest := assemble_tables f wb rho mp tp tower (waterdepth_handling wb sm) in
  assemble_structure f wb rho cfg
  = mkM (events (select_RNA f wb cfg)
         ++ events (height_reference_handling f wb (blank_Values (STRUCTURE_META wb)))
         ++ events rest)
        (result rest).
Proof.
  intros Hq Hr Hh rest. unfold assemble_structure.
  rewrite (bind_Value _ _ _ Hq), (quality_checks_events _ _ _ Hq). cbn [events result app].
  rewrite (bind_Value _ _ _ Hr). cbn [events result].
  rewrite (bind_Value _ _ _ Hh). cbn [events result].
  reflexivity.
Qed.

Lemma select_RNA_written (f : string) (wb : Workbook) (cfg : string) :
  result (select_RNA f wb cfg) = Value tt ->
  written (select_RNA f wb cfg)
  = if String.eqb cfg "" then []
    else [("StructureOverview", "RNA",
           TRNA (List.filter (fun r => String.eqb (Identifier r) cfg) (RNA_DATA wb)))].
Proof.
  unfold select_RNA. destruct (String.eqb cfg ""); [reflexivity |].
  destruct (negb (existsb _ _)); [discriminate | reflexivity].
Qed.

Lemma height_reference_handling_written (f : string) (wb : Workbook) (sm : list ParamRow) :
  written (height_reference_handling f wb sm) = [].
Proof.
  unfold height_reference_handling.
  destruct (negb (all_same_ignoring_none _)).
  - cbn. destruct (String.eqb _ "No"); reflexivity.
  - destruct (omap id _); reflexivity.
Qed.

Lemma written_mkM {A : Type} (l1 l2 : list Event) (r : Result A) :
  written (mkM (l1 ++ l2) r) = written (mkM l1 r) ++ written (mkM l2 r).
Proof. unfold written. cbn [events]. apply omap_app. Qed.

Lemma messages_mkM {A : Type} (l1 l2 : list Event) (r : Result A) :
  messages (mkM (l1 ++ l2) r) = messages (mkM l1 r) ++ messages (mkM l2 r).
Proof. unfold messages. cbn [events]. apply omap_app. Qed.

(** C6. When the run gets to the height reference handling (the quality
    checks and the RNA selection passed) and the three height references
    are all None, no conflict is seen and the run ends in an IndexError:
    it does not complete, and nothing was written after the RNA step. *)
Theorem undefined_height_references_raise (f : string) (wb : Workbook) (rho : Q)
    (cfg : string) (mp tp tower : list Row) :
  result (quality_checks f wb) = Value (mp, tp, tower) ->
  result (select_RNA f wb cfg) = Value tt ->
  Height_Reference (MP_META wb) = None ->
  Height_Reference (TP_META wb) = None ->
  Height_Reference (TOWER_META wb) = None ->
  all_same_ignoring_none [Height_Reference (MP_META wb); Height_Reference (TP_META wb);
                          Height_Reference (TOWER_META wb)] = true
  /\ outcome (assemble_structure f wb rho cfg) = Raised IndexError
  /\ events (assemble_structure f wb rho cfg) = events (select_RNA f wb cfg).
Proof.
  intros Hq Hr H1 H2 H3. split; [rewrite H1, H2, H3; reflexivity |].
  unfold assemble_structure.
  rewrite (bind_Value _ _ _ Hq), (quality_checks_events _ _ _ Hq). cbn [events result app].
  rewrite (bind_Value _ _ _ Hr). cbn [events result].
  unfold height_reference_handling. rewrite H1, H2, H3.
  unfold outcome. cbn. rewrite app_nil_r. split; reflexivity.
Qed.

Lemma undefined_height_references_raise_witness :
  all_same_ignoring_none [Height_Reference (MP_META wb_no_reference);
                          Height_Reference (TP_META wb_no_reference);
                          Height_Reference (TOWER_META wb_no_reference)] = true
  /\ outcome (assemble_structure excel wb_no_reference 7850 "") = Raised IndexError
  /\ events (assemble_structure excel wb_no_reference 7850 "")
     = events (select_RNA excel wb_no_reference "").
Proof.
  apply (undefined_height_references_raise excel wb_no_reference 7850 ""
           [mkRow None (Some 1) 10 0 5 5 50] [mkRow None (Some 1) 12 10 5 5 50]
           [mkRow None (Some 1) 100 20 4 4 30]); reflexivity.
Defined.

Lemma last_map {A B : Type} (g : A -> B) (l : list A) : last (map g l) = g <$> last l.
Proof.
  induction l as [|x [|y l] IH]; [reflexivity | reflexivity | exact IH].
Qed.

Lemma last_item_map {A B : Type} (g : A -> B) (l : list A) (x : A) :
  last l = Some x -> last_item (map g l) = mret (g x).
Proof. intros H. unfold last_item. rewrite last_map, H. reflexivity. Qed.

Lemma head_last_is_Some {A : Type} (l : list A) (a : A) :
  head l = Some a -> is_Some (last l).
Proof.
  destruct l as [|x l]; [discriminate |]. intros _.
  induction l as [|y l IH] using rev_ind; [eexists; reflexivity |].
  rewrite app_comm_cons, last_snoc. eexists; reflexivity.
Qed.

(** The ranges end at the top of the first MP row and at the bottom of
    the last TP row. *)
Lemma extract_ranges_ends (MP TP : list Row) (a b : Row) :
  head MP = Some a -> last TP = Some b ->
  extract_ranges MP TP = mret (Top a, Bottom b).
Proof.
  intros Ha Hb. unfold extract_ranges.
  destruct (head_last_is_Some MP a Ha) as [c Hc].
  rewrite (last_item_map Bottom MP c Hc), mret_bind.
  rewrite (last_item_map Bottom TP b Hb), mret_bind.
  destruct MP as [|a' MP']; [discriminate |]. injection Ha as ->.
  cbn [map app first_item]. rewrite mret_bind.
  unfold last_item. rewrite last_snoc. rewrite mret_bind. reflexivity.
Qed.

Lemma head_map {A B : Type} (g : A -> B) (l : list A) : head (map g l) = g <$> head l.
Proof. destruct l; reflexivity. Qed.

(** [assemble_tables] on a hovering TP: one message, then the early
    return. *)
Lemma assemble_tables_hovering (f : string) (wb : Workbook) (rho : Q)
    (mp tp tower : list Row) (sm : list ParamRow) (a b : Row) :
  head mp = Some a -> last tp = Some b -> Top a < Bottom b ->
  assemble_tables f wb rho mp tp tower sm
  = mkM [MessageBox f (MsgHovering (Top a) (Bottom b) (Bottom b - Top a))] EarlyReturn.
Proof.
  intros Ha Hb Hgap. unfold assemble_tables. cbv zeta.
  rewrite (extract_ranges_ends _ _ (insert_Affiliation "MP" a) (insert_Affiliation "TP" b))
    by (rewrite ?head_map, ?last_map, ?Ha, ?Hb; reflexivity).
  rewrite mret_bind. cbn [Top Bottom insert_Affiliation].
  unfold assemble_MP_TP.
  apply Qlt_bool_iff in Hgap. rewrite Hgap. reflexivity.
Qed.

(** C4, as far as it holds.  When the run gets to the check of the MP/TP
    connection and the top of the MP is below the bottom of the TP, the
    run ends there by the early return; its last message reports the gap
    TP_bot - MP_top; and the only table written is the RNA table, written
    before when an RNA was selected: no assembled table is written. *)
Theorem hovering_TP_aborts (f : string) (wb : Workbook) (rho : Q) (cfg : string)
    (mp tp tower : list Row) (sm : list ParamRow) (a b : Row) :
  result (quality_checks f wb) = Value (mp, tp, tower) ->
  result (select_RNA f wb cfg) = Value tt ->
  result (height_reference_handling f wb (blank_Values (STRUCTURE_META wb))) = Value sm ->
  head mp = Some a -> last tp = Some b ->
  Top a < Bottom b ->
  outcome (assemble_structure f wb rho cfg) = Aborted
  /\ last (messages (assemble_structure f wb rho cfg))
     = Some (MsgHovering (Top a) (Bottom b) (Bottom b - Top a))
  /\ written (assemble_structure f wb rho cfg)
     = if String.eqb cfg "" then []
       else [("StructureOverview", "RNA",
              TRNA (List.filter (fun r => String.eqb (Identifier r) cfg) (RNA_DATA wb)))].
Proof.
  intros Hq Hr Hh Ha Hb Hgap.
  rewrite (assemble_structure_passes f wb rho cfg mp tp tower sm Hq Hr Hh). cbv zeta.
  rewrite (assemble_tables_hovering f wb rho mp tp tower _ a b Ha Hb Hgap).
  cbn [events result]. split; [reflexivity |]. split.
  - rewrite app_assoc, messages_mkM. apply last_snoc.
  - rewrite !written_mkM.
    pose proof (select_RNA_written f wb cfg Hr) as Wr.
    pose proof (height_reference_handling_written f wb (blank_Values (STRUCTURE_META wb)))
      as Wh.
    unfold written in *. cbn [events] in *. rewrite Wr, Wh. cbn.
    rewrite app_nil_r. reflexivity.
Qed.

Lemma hovering_TP_aborts_witness :
  outcome (assemble_structure excel wb_hovering 7850 "RNA-15MW") = Aborted
  /\ last (messages (assemble_structure excel wb_hovering 7850 "RNA-15MW"))
     = Some (MsgHovering 10 12 (12 - 10))
  /\ written (assemble_structure excel wb_hovering 7850 "RNA-15MW")
     = [("StructureOverview", "RNA", TRNA [mkRNARow "RNA-15MW" [CNum 950]])].
Proof.
  apply (hovering_TP_aborts excel wb_hovering 7850 "RNA-15MW"
           [mkRow None (Some 1) 10 0 5 5 50] [mkRow None (Some 1) 20 12 5 5 50]
           [mkRow None (Some 1) 100 20 4 4 30]
           [mkParamRow "Height Reference" (VText "LAT"); mkParamRow "Seabed level" VEmpty]
           (mkRow None (Some 1) 10 0 5 5 50) (mkRow None (Some 1) 20 12 5 5 50));
    reflexivity.
Defined.

(** C4 as stated fails: with an RNA selected, a run that ends on the gap
    of 2 m between MP top 10 and TP bottom 12 has already written a
    table. *)
Lemma hovering_TP_run_has_written :
  outcome (assemble_structure excel wb_hovering 7850 "RNA-15MW") = Aborted
  /\ In (MsgHovering 10 12 (12 - 10))
        (messages (assemble_structure excel wb_hovering 7850 "RNA-15MW"))
  /\ written (assemble_structure excel wb_hovering 7850 "RNA-15MW") <> [].
Proof.
  split; [reflexivity |]. split.
  - vm_compute. right. left. reflexivity.
  - vm_compute. discriminate.
Qed.

(** C3. The TP from 8 to 5 lies inside the MP from 10 to 0, so the node
    at MP top 10 is outside the TP: [add_element] prints its line and
    hands the table back as if nothing had failed, and the run goes on to
    its end and writes all its tables. *)
Theorem failed_interpolation_does_not_abort :
  add_element [mkRow (Some "TP") (Some 1) 8 5 5 5 50] 10
  = mkM [Print "interpolation not possible, outside bounds"]
        (Value [mkRow (Some "TP") (Some 1) 8 5 5 5 50])
  /\ outcome (assemble_structure excel wb_TP_inside_MP 7850 "") = Completed
  /\ printed (assemble_structure excel wb_TP_inside_MP 7850 "")
     = ["interpolation not possible, outside bounds"]
  /\ map fst (written (assemble_structure excel wb_TP_inside_MP 7850 ""))
     = [("StructureOverview", "SKIRT");
        ("StructureOverview", "SKIRT_POINTMASS");
        ("StructureOverview", "WHOLE_STRUCTURE");
        ("StructureOverview", "ALL_ADDED_MASSES");
        ("StructureOverview", "STRUCTURE_META")].
Proof.
  split; [reflexivity |]. split; [reflexivity |]. split; vm_compute; reflexivity.
Qed.

















Lemma outcome_Completed (m : M unit) : outcome m = Completed -> result m = Value tt.
Proof.
  unfold outcome. destruct (result m) as [[]| |]; intros H; try discriminate. reflexivity.
Qed.



(** ** Further properties of [misc.py] *)

(** *** The frustum formulas *)




(** *** valid_data *)





(** *** sanity_check_structure *)





(** *** add_element *)

Lemma continuous_cons (a : Row) (l : list Row) :
  continuous (a :: l)
  <-> match l with [] => True | b :: _ => Bottom a == Top b end /\ continuous l.
Proof.
  destruct l as [|b l].
  - split; [| intros _ [|i] u w H1 H2; discriminate].
    intros _. split; [exact I |]. intros i u w H. discriminate.
  - split.
    + intros Hc. split; [exact (Hc 0%nat a b eq_refl eq_refl) |].
      intros i u w H1 H2. exact (Hc (S i) u w H1 H2).
    + intros [Hab Hc] [|i] u w H1 H2.
      * cbn in H1, H2. inversion H1; inversion H2; subst. exact Hab.
      * exact (Hc i u w H1 H2).
Qed.


Lemma splice_head_Top (df : list Row) (i : nat) (seg : Row) (z : Q) :
  df !! i = Some seg -> Top <$> head (splice df i seg z) = Top <$> head df.
Proof.
  unfold splice. destruct df as [|a df]; [discriminate |].
  destruct i as [|i]; cbn; intros H; [inversion H; reflexivity | reflexivity].
Qed.

Lemma splice_last_Bottom (df : list Row) (i : nat) (seg : Row) (z : Q) :
  df !! i = Some seg -> Bottom <$> last (splice df i seg z) = Bottom <$> last df.
Proof.
  intros H. unfold splice.
  rewrite <- (take_drop_middle df i seg H) at 3.
  rewrite !last_app. cbn [app]. rewrite !last_cons.
  destruct (last (drop (S i) df)); reflexivity.
Qed.

Lemma continuous_splice (df : list Row) (i : nat) (seg : Row) (z : Q) :
  df !! i = Some seg -> continuous df -> continuous (splice df i seg z).
Proof.
  revert i. induction df as [|a df IH]; intros i Hl Hc; [discriminate |].
  apply continuous_cons in Hc. destruct Hc as [Hab Hc].
  destruct i as [|i].
  - cbn in Hl. inversion Hl; subst. unfold splice. cbn [take drop app].
    apply continuous_cons. split; [reflexivity |].
    apply continuous_cons. split; [| exact Hc].
    destruct df; [exact I | exact Hab].
  - cbn in Hl. specialize (IH i Hl Hc).
    change (splice (a :: df) (S i) seg z) with (a :: splice df i seg z).
    apply continuous_cons. split; [| exact IH].
    pose proof (splice_head_Top df i seg z Hl) as Hh.
    destruct (splice df i seg z) as [|x xs]; [exact I |].
    destruct df as [|b df]; [discriminate |].
    cbn in Hh. inversion Hh as [E]. rewrite E. exact Hab.
Qed.

(** X5. Whatever [add_element] returns, the table keeps its extent and
    its continuity: the first row has the old Top [m], the last row the old
    Bottom [m], a continuous table stays continuous, and the table is the
    old one or has exactly one row more. *)
Theorem add_element_keeps_structure (df df1 : list Row) (z_new : Q) :
  result (add_element df z_new) = Value df1 ->
  (continuous df -> continuous df1)
  /\ Top <$> head df1 = Top <$> head df
  /\ Bottom <$> last df1 = Bottom <$> last df
  /\ (df1 = df \/ length df1 = S (length df)).
Proof.
  intros Hres.
  destruct (add_element_cases df z_new) as [E | [[line E] | (i & seg & Hl & _ & _ & E)]];
    rewrite E in Hres; cbn in Hres; inversion Hres; subst; auto.
  fold (splice df i seg z_new). repeat split.
  - apply continuous_splice. exact Hl.
  - apply splice_head_Top. exact Hl.
  - apply splice_last_Bottom. exact Hl.
  - right. unfold splice. rewrite <- (take_drop_middle df i seg Hl) at 3.
    rewrite !length_app. cbn. lia.
Qed.

Lemma add_element_keeps_structure_witness :
  (continuous MP_two_sections -> continuous (splice MP_two_sections 0 (mkRow None (Some 1) 10 6 5 6 50) 8))
  /\ Top <$> head (splice MP_two_sections 0 (mkRow None (Some 1) 10 6 5 6 50) 8)
     = Top <$> head MP_two_sections
  /\ Bottom <$> last (splice MP_two_sections 0 (mkRow None (Some 1) 10 6 5 6 50) 8)
     = Bottom <$> last MP_two_sections
  /\ (splice MP_two_sections 0 (mkRow None (Some 1) 10 6 5 6 50) 8 = MP_two_sections
      \/ length (splice MP_two_sections 0 (mkRow None (Some 1) 10 6 5 6 50) 8)
         = S (length MP_two_sections)).
Proof.
  apply (add_element_keeps_structure MP_two_sections
           (splice MP_two_sections 0 (mkRow None (Some 1) 10 6 5 6 50) 8) 8).
  reflexivity.
Defined.


Lemma well_formed_cons (a : Row) (l : list Row) :
  well_formed (a :: l)
  <-> Bottom a < Top a
      /\ match l with [] => True | b :: _ => Bottom a == Top b end
      /\ well_formed l.
Proof.
  unfold well_formed. rewrite continuous_cons, Forall_cons. tauto.
Qed.

Lemma well_formed_descends (b : Row) (l : list Row) (r : Row) :
  well_formed (b :: l) -> In r (b :: l) -> Top r <= Top b.
Proof.
  revert b. induction l as [|c l IH]; intros b Hw Hin.
  - destruct Hin as [<- | []]. lra.
  - apply well_formed_cons in Hw. destruct Hw as (Hb & Hbc & Hw).
    destruct Hin as [<- | Hin]; [lra |].
    specialize (IH c Hw Hin).
    apply well_formed_cons in Hw. destruct Hw as (Hc & _). lra.
Qed.

Lemma filter_imap_none (g : nat -> nat) (z : Q) (l : list Row) :
  (forall r, In r l -> Top r <= z) ->
  List.filter (straddles z) (imap (fun i r => (g i, r)) l) = [].
Proof.
  revert g. induction l as [|a l IH]; intros g H; [reflexivity |].
  cbn [imap List.filter]. unfold straddles at 1. cbn [snd].
  assert (E : Qlt_bool z (Top a) = false)
    by (apply Qlt_bool_false_iff, H; left; reflexivity).
  rewrite E. cbn [andb].
  apply (IH (g ∘ S)). intros r Hr. apply H. right. exact Hr.
Qed.

Lemma one_segment_straddles (g : nat -> nat) (z : Q) (df : list Row) (a b : Row) :
  well_formed df -> head df = Some a -> last df = Some b ->
  Bottom b < z -> z < Top a ->
  (forall r, In r df -> ~ Top r == z /\ ~ Bottom r == z) ->
  exists i seg, List.filter (straddles z) (imap (fun i r => (g i, r)) df) = [(i, seg)].
Proof.
  revert g a. induction df as [|x df IH]; intros g a Hw Ha Hb Hlo Hhi Hnode; [discriminate |].
  cbn in Ha. inversion Ha; subst x. clear Ha.
  apply well_formed_cons in Hw. destruct Hw as (Hpos & Hnext & Hw).
  cbn [imap List.filter]. unfold straddles at 1. cbn [snd].
  assert (E1 : Qlt_bool z (Top a) = true) by (apply Qlt_bool_iff; exact Hhi).
  rewrite E1. cbn [andb].
  destruct (Qlt_bool (Bottom a) z) eqn:E2.
  - exists (g 0%nat), a. f_equal.
    destruct df as [|c df]; [reflexivity |].
    apply (filter_imap_none (g ∘ S)). intros r Hr.
    pose proof (well_formed_descends c df r Hw Hr). apply Qlt_bool_iff in E2. lra.
  - apply Qlt_bool_false_iff in E2.
    destruct (Hnode a (or_introl eq_refl)) as [_ Hne].
    assert (Hlt : z < Bottom a).
    { destruct (Qlt_le_dec z (Bottom a)) as [H | H]; [exact H |].
      exfalso. apply Hne. lra. }
    destruct df as [|c df].
    + cbn in Hb. inversion Hb; subst. lra.
    + apply (IH (g ∘ S) c Hw eq_refl).
      * rewrite last_cons_cons in Hb. exact Hb.
      * exact Hlo.
      * lra.
      * intros r Hr. apply Hnode. right. exact Hr.
Qed.

Lemma node_separates (l : list Row) (n : Row) (z : Q) :
  well_formed l -> In n l -> (Top n == z \/ Bottom n == z) ->
  forall r, In r l -> Top r <= z \/ z <= Bottom r.
Proof.
  induction l as [|x l IH]; intros Hw Hn Hz r Hr; [contradiction |].
  apply well_formed_cons in Hw. destruct Hw as (Hx & Hnext & Hw).
  assert (Hbelow : forall s, In s l -> Top s <= Bottom x /\ Bottom s < Bottom x).
  { intros s Hs. destruct l as [|c l]; [contradiction |].
    pose proof (well_formed_descends c l s Hw Hs) as Hd.
    destruct Hw as [_ Hpos]. rewrite Forall_forall in Hpos.
    pose proof (Hpos s (proj2 (list_elem_of_In _ _) Hs)) as Hps. cbn in Hps.
    split; lra. }
  destruct Hn as [<- | Hn], Hr as [<- | Hr].
  - destruct Hz as [Hz | Hz]; [left | right]; lra.
  - destruct (Hbelow r Hr) as [H1 H2]. left. destruct Hz as [Hz | Hz]; lra.
  - destruct (Hbelow n Hn) as [H1 H2]. right. destruct Hz as [Hz | Hz]; lra.
  - exact (IH Hw Hn Hz r Hr).
Qed.

Lemma all_below_cut (l : list Row) (z : Q) :
  Forall (fun r => Bottom r < Top r) l -> (forall r, In r l -> Top r <= z) ->
  cut_above z l = [] /\ cut_below z l = l.
Proof.
  unfold cut_above, cut_below.
  induction l as [|x l IH]; intros Hpos Hall; [split; reflexivity |].
  apply Forall_cons in Hpos. destruct Hpos as [Hx Hpos].
  destruct (IH Hpos (fun r Hr => Hall r (or_intror Hr))) as [E1 E2].
  pose proof (Hall x (or_introl eq_refl)) as Htop.
  cbn [List.filter].
  assert (F1 : Qle_bool z (Bottom x) = false).
  { apply not_true_is_false. intros H. apply Qle_bool_iff in H. lra. }
  assert (F2 : Qle_bool (Top x) z = true) by (apply Qle_bool_iff; exact Htop).
  rewrite F1, F2, E1, E2. split; reflexivity.
Qed.

Lemma rows_below_first (x : Row) (l : list Row) :
  well_formed (x :: l) -> forall r, In r l -> Top r <= Bottom x.
Proof.
  intros Hw r Hr. apply well_formed_cons in Hw. destruct Hw as (_ & Hnext & Hw).
  destruct l as [|c l]; [contradiction |].
  pose proof (well_formed_descends c l r Hw Hr). lra.
Qed.

Lemma cut_partition (l : list Row) (z : Q) :
  well_formed l -> (forall r, In r l -> Top r <= z \/ z <= Bottom r) ->
  l = cut_above z l ++ cut_below z l.
Proof.
  induction l as [|x l IH]; intros Hw Hsep; [reflexivity |].
  pose proof (rows_below_first x l Hw) as Hbelow.
  apply well_formed_cons in Hw. destruct Hw as (Hx & Hnext & Hw).
  unfold cut_above, cut_below. cbn [List.filter].
  destruct (Qle_bool z (Bottom x)) eqn:E1.
  - apply Qle_bool_iff in E1.
    assert (F2 : Qle_bool (Top x) z = false).
    { apply not_true_is_false. intros H. apply Qle_bool_iff in H. lra. }
    rewrite F2. cbn [app]. f_equal.
    exact (IH Hw (fun r Hr => Hsep r (or_intror Hr))).
  - assert (Htop : Top x <= z).
    { destruct (Hsep x (or_introl eq_refl)) as [H | H]; [exact H |].
      apply Qle_bool_iff in H. rewrite H in E1. discriminate. }
    assert (F2 : Qle_bool (Top x) z = true) by (apply Qle_bool_iff; exact Htop).
    rewrite F2.
    destruct (all_below_cut l z (proj2 Hw)) as [A1 A2].
    { intros r Hr. pose proof (Hbelow r Hr). lra. }
    unfold cut_above, cut_below in A1, A2. rewrite A1, A2. reflexivity.
Qed.

Lemma cut_meets (l : list Row) (z : Q) (a b : Row) :
  well_formed l -> (forall r, In r l -> Top r <= z \/ z <= Bottom r) ->
  head l = Some a -> last l = Some b -> Bottom b < z -> z < Top a ->
  (exists r, last (cut_above z l) = Some r /\ Bottom r == z)
  /\ (exists r, head (cut_below z l) = Some r /\ Top r == z).
Proof.
  revert a. induction l as [|x l IH]; intros a Hw Hsep Ha Hb Hlo Hhi; [discriminate |].
  cbn in Ha. inversion Ha; subst x. clear Ha.
  pose proof (rows_below_first a l Hw) as Hbelow.
  apply well_formed_cons in Hw. destruct Hw as (Hx & Hnext & Hw).
  assert (Hza : z <= Bottom a).
  { destruct (Hsep a (or_introl eq_refl)) as [H | H]; [lra | exact H]. }
  assert (F1 : Qle_bool z (Bottom a) = true) by (apply Qle_bool_iff; exact Hza).
  assert (F2 : Qle_bool (Top a) z = false).
  { apply not_true_is_false. intros H. apply Qle_bool_iff in H. lra. }
  unfold cut_above, cut_below. cbn [List.filter]. rewrite F1, F2.
  destruct l as [|c l].
  - cbn in Hb. inversion Hb; subst b. lra.
  - rewrite last_cons_cons in Hb.
    destruct (Qlt_le_dec z (Top c)) as [Hc | Hc].
    + destruct (IH c Hw (fun r Hr => Hsep r (or_intror Hr)) eq_refl Hb Hlo Hc)
        as [(r & Hr & Hrz) (r' & Hr' & Hrz')].
      split.
      * exists r. split; [| exact Hrz]. unfold cut_above in Hr.
        rewrite last_cons, Hr. reflexivity.
      * exists r'. split; [exact Hr' | exact Hrz'].
    + destruct (all_below_cut (c :: l) z (proj2 Hw)) as [A1 A2].
      { intros r Hr. pose proof (Hbelow r Hr). lra. }
      unfold cut_above, cut_below in A1, A2. rewrite A1, A2.
      split.
      * exists a. split; [reflexivity | lra].
      * exists c. split; [reflexivity | lra].
Qed.


Lemma add_element_well_formed (df : list Row) (z_new : Q) (a b : Row) :
  well_formed df -> head df = Some a -> last df = Some b ->
  Bottom b < z_new -> z_new < Top a ->
  exists df1,
    add_element df z_new = mret df1
    /\ well_formed df1
    /\ (exists r, In r df1 /\ (Top r == z_new \/ Bottom r == z_new))
    /\ Top <$> head df1 = Some (Top a)
    /\ Bottom <$> last df1 = Some (Bottom b).
Proof.
  intros Hw Ha Hb Hlo Hhi. unfold add_element.
  destruct (0 <? length (List.filter _ df))%nat eqn:Hnode.
  - exists df. split; [reflexivity |]. split; [exact Hw |].
    split; [| rewrite Ha, Hb; split; reflexivity].
    destruct (List.filter _ df) as [|r rest] eqn:E; [discriminate |].
    assert (Hr : In r (List.filter
       (fun r => Qeq_bool (Top r) z_new || Qeq_bool (Bottom r) z_new) df))
      by (rewrite E; left; reflexivity).
    apply filter_In in Hr. destruct Hr as [Hr Hz]. exists r. split; [exact Hr |].
    apply orb_true_iff in Hz. destruct Hz as [Hz | Hz]; apply Qeq_bool_iff in Hz; auto.
  - assert (Hnone : forall r, In r df -> ~ Top r == z_new /\ ~ Bottom r == z_new).
    { intros r Hr. split; intros Hz;
        (rewrite (filter_nonempty _ df r Hr) in Hnode; [discriminate |]);
        apply orb_true_iff; [left | right]; apply Qeq_bool_iff; exact Hz. }
    destruct (one_segment_straddles (fun i => i) z_new df a b Hw Ha Hb Hlo Hhi Hnone)
      as (i & seg & Hone).
    unfold straddles in Hone. rewrite Hone.
    assert (Hin : In (i, seg) (List.filter
       (fun ir : nat * Row => Qlt_bool z_new (Top ir.2) && Qlt_bool (Bottom ir.2) z_new)
       (imap (fun (i : nat) (r : Row) => (i, r)) df)))
      by (rewrite Hone; left; reflexivity).
    pose proof (filter_imap_lookup _ _ _ _ Hin) as Hl.
    apply filter_In in Hin. destruct Hin as [_ Hs]. cbn in Hs.
    apply andb_true_iff in Hs. destruct Hs as [H1 H2]. apply Qlt_bool_iff in H1, H2.
    rewrite (splice_after_insert df i seg _ _ Hl).
    eexists. split; [reflexivity |]. fold (splice df i seg z_new). split; [| split; [| split]].
    + destruct Hw as [Hc Hpos]. split; [exact (continuous_splice df i seg z_new Hl Hc) |].
      unfold splice.
      apply Forall_app. split; [apply Forall_take; exact Hpos |].
      apply Forall_cons. split; [exact H1 |].
      apply Forall_cons. split; [exact H2 |].
      apply Forall_drop. exact Hpos.
    + exists (new_row seg z_new). split; [| left; reflexivity].
      unfold splice. apply in_or_app. right. right. left. reflexivity.
    + rewrite (splice_head_Top df i seg z_new Hl), Ha. reflexivity.
    + rewrite (splice_last_Bottom df i seg z_new Hl), Hb. reflexivity.
Qed.

(** X6. On a well-formed table (continuous, every segment with its top
    above its bottom) an elevation strictly between the bottom of the last
    row and the top of the first row is always interpolated: [add_element]
    prints nothing and returns a well-formed table that is cut at the
    elevation: it is the rows with Bottom >= z, the last of which ends at
    z, followed by the rows with Top <= z, the first of which begins at z;
    no row lies across z and none is selected twice. *)
Theorem add_element_inserts_into_well_formed (df : list Row) (z_new : Q) (a b : Row) :
  well_formed df -> head df = Some a -> last df = Some b ->
  Bottom b < z_new -> z_new < Top a ->
  exists df1,
    add_element df z_new = mret df1
    /\ well_formed df1
    /\ df1 = cut_above z_new df1 ++ cut_below z_new df1
    /\ (exists r, last (cut_above z_new df1) = Some r /\ Bottom r == z_new)
    /\ (exists r, head (cut_below z_new df1) = Some r /\ Top r == z_new).
Proof.
  intros Hw Ha Hb Hlo Hhi.
  destruct (add_element_well_formed df z_new a b Hw Ha Hb Hlo Hhi)
    as (df1 & Hrun & Hw1 & (n & Hn & Hz) & Hh & Hl).
  exists df1. split; [exact Hrun |]. split; [exact Hw1 |].
  pose proof (node_separates df1 n z_new Hw1 Hn Hz) as Hsep.
  split; [exact (cut_partition df1 z_new Hw1 Hsep) |].
  destruct (head df1) as [a1|] eqn:Ea; [| discriminate].
  destruct (last df1) as [b1|] eqn:Eb; [| discriminate].
  cbn in Hh, Hl. inversion Hh as [Eh]. inversion Hl as [El].
  apply (cut_meets df1 z_new a1 b1 Hw1 Hsep Ea Eb); [rewrite El | rewrite Eh]; assumption.
Qed.

Lemma add_element_inserts_into_well_formed_witness :
  exists df1,
    add_element MP_two_sections 3 = mret df1
    /\ well_formed df1
    /\ df1 = cut_above 3 df1 ++ cut_below 3 df1
    /\ (exists r, last (cut_above 3 df1) = Some r /\ Bottom r == 3)
    /\ (exists r, head (cut_below 3 df1) = Some r /\ Top r == 3).
Proof.
  apply (add_element_inserts_into_well_formed MP_two_sections 3
           (mkRow None (Some 1) 10 6 5 6 50) (mkRow None (Some 2) 6 0 6 6 50)).
  - split.
    + intros [|[|i]] u w H1 H2; try discriminate.
      inversion H1; inversion H2; subst. reflexivity.
    + repeat constructor.
  - reflexivity.
  - reflexivity.
  - reflexivity.
  - reflexivity.
Defined.




(** *** assemble_structure *)

(** X8. When one of the three structure tables holds a cell that is not a
    number, the run ends after the quality checks: it shows one message
    for every invalid table, in the order MP, TP, TOWER (all three tables
    are looked at, not only the first invalid one), writes no table and
    returns. *)
Theorem invalid_data_aborts (f : string) (wb : Workbook) (rho : Q) (cfg : string) :
  fst (valid_data (MP_DATA wb)) && fst (valid_data (TP_DATA wb))
  && fst (valid_data (TOWER_DATA wb)) = false ->
  outcome (assemble_structure f wb rho cfg) = Aborted
  /\ written (assemble_structure f wb rho cfg) = []
  /\ messages (assemble_structure f wb rho cfg)
     = (if fst (valid_data (MP_DATA wb)) then [] else [MsgInvalidData "MP"])
       ++ (if fst (valid_data (TP_DATA wb)) then [] else [MsgInvalidData "TP"])
       ++ (if fst (valid_data (TOWER_DATA wb)) then [] else [MsgInvalidData "TOWER"]).
Proof.
  unfold assemble_structure, quality_checks.
  destruct (check_convert_structure_cases f (MP_DATA wb) "MP")
    as [(r1 & V1 & E1) | (V1 & E1)];
  destruct (check_convert_structure_cases f (TP_DATA wb) "TP")
    as [(r2 & V2 & E2) | (V2 & E2)];
  destruct (check_convert_structure_cases f (TOWER_DATA wb) "TOWER")
    as [(r3 & V3 & E3) | (V3 & E3)];
  rewrite E1, E2, E3, V1, V2, V3; cbn; intros H; try discriminate;
    repeat split; reflexivity.
Qed.

Lemma invalid_data_aborts_witness :
  outcome (assemble_structure excel wb_invalid 7850 "") = Aborted
  /\ written (assemble_structure excel wb_invalid 7850 "") = []
  /\ messages (assemble_structure excel wb_invalid 7850 "") = [MsgInvalidData "MP"].
Proof. exact (invalid_data_aborts excel wb_invalid 7850 "" eq_refl). Defined.

(** X9. After passed quality checks, a selected RNA configuration that
    the RNA table does not list ends the run at once: the one message
    about the RNA is everything the run does; the quality checks were
    silent and no table is written. *)
Theorem unknown_RNA_aborts (f : string) (wb : Workbook) (rho : Q) (cfg : string)
    (mp tp tower : list Row) :
  result (quality_checks f wb) = Value (mp, tp, tower) ->
  cfg <> "" ->
  ~ In cfg (map Identifier (RNA_DATA wb)) ->
  assemble_structure f wb rho cfg = mkM [MessageBox f MsgRNANotInMenu] EarlyReturn.
Proof.
  intros Hq Hne Hnot. unfold assemble_structure.
  rewrite (bind_Value _ _ _ Hq), (quality_checks_events _ _ _ Hq). cbn [events result app].
  unfold select_RNA.
  apply String.eqb_neq in Hne. rewrite Hne.
  assert (E : existsb (String.eqb cfg) (map Identifier (RNA_DATA wb)) = false).
  { apply not_true_is_false. intros H. apply existsb_exists in H.
    destruct H as (x & Hx & Heq). apply String.eqb_eq in Heq. subst x. exact (Hnot Hx). }
  rewrite E. reflexivity.
Qed.

Lemma unknown_RNA_aborts_witness :
  assemble_structure excel wb_hovering 7850 "RNA-10MW"
  = mkM [MessageBox excel MsgRNANotInMenu] EarlyReturn.
Proof.
  apply (unknown_RNA_aborts excel wb_hovering 7850 "RNA-10MW"
           [mkRow None (Some 1) 10 0 5 5 50] [mkRow None (Some 1) 20 12 5 5 50]
           [mkRow None (Some 1) 100 20 4 4 30]).
  - reflexivity.
  - discriminate.
  - intros [H | []]. discriminate H.
Defined.

(** X10. When the height references of MP, TP and TOWER differ and the
    dialog is answered with No, the run ends there: the question with the
    three references is its last message, and nothing but the RNA table of
    the RNA block has been written. *)
Theorem height_reference_conflict_No_aborts (f : string) (wb : Workbook) (rho : Q)
    (cfg : string) (mp tp tower : list Row) :
  result (quality_checks f wb) = Value (mp, tp, tower) ->
  result (select_RNA f wb cfg) = Value tt ->
  all_same_ignoring_none [Height_Reference (MP_META wb); Height_Reference (TP_META wb);
                          Height_Reference (TOWER_META wb)] = false ->
  answer_height_reference wb = "No" ->
  outcome (assemble_structure f wb rho cfg) = Aborted
  /\ last (messages (assemble_structure f wb rho cfg))
     = Some (MsgHeightReferencesDiffer (Height_Reference (MP_META wb))
               (Height_Reference (TP_META wb)) (Height_Reference (TOWER_META wb)))
  /\ written (assemble_structure f wb rho cfg) = written (select_RNA f wb cfg).
Proof.
  intros Hq Hr Hdiff Hno. unfold assemble_structure.
  rewrite (bind_Value _ _ _ Hq), (quality_checks_events _ _ _ Hq). cbn [events result app].
  rewrite (bind_Value _ _ _ Hr). cbn [events result].
  unfold height_reference_handling. rewrite Hdiff, Hno. cbn.
  unfold outcome, messages, written. cbn [events result].
  rewrite !omap_app. cbn. rewrite app_nil_r. split; [reflexivity |].
  split; [apply last_snoc | reflexivity].
Qed.

Lemma height_reference_conflict_No_aborts_witness :
  outcome (assemble_structure excel wb_conflict_No 7850 "") = Aborted
  /\ last (messages (assemble_structure excel wb_conflict_No 7850 ""))
     = Some (MsgHeightReferencesDiffer (Some "LAT") (Some "MSL") None)
  /\ written (assemble_structure excel wb_conflict_No 7850 "") = [].
Proof.
  apply (height_reference_conflict_No_aborts excel wb_conflict_No 7850 ""
           [mkRow None (Some 1) 10 0 5 5 50] [mkRow None (Some 1) 12 10 5 5 50]
           [mkRow None (Some 1) 100 20 4 4 30]); reflexivity.
Defined.

Lemma set_Value_Parameter (name : string) (v : MetaValue) (t : list ParamRow) :
  map sm_Parameter (set_Value name v t) = map sm_Parameter t.
Proof.
  unfold set_Value. rewrite map_map. apply map_ext. intros p.
  destruct (String.eqb (sm_Parameter p) name); reflexivity.
Qed.

Lemma set_Value_lookup (name : string) (v : MetaValue) (t : list ParamRow) (p : ParamRow) :
  In p (set_Value name v t) ->
  (sm_Parameter p = name /\ sm_Value p = v)
  \/ (sm_Parameter p <> name /\ In p t).
Proof.
  unfold set_Value. rewrite in_map_iff. intros (q & <- & Hq).
  destruct (String.eqb (sm_Parameter q) name) eqn:E.
  - left. apply String.eqb_eq in E. split; [exact E | reflexivity].
  - right. apply String.eqb_neq in E. split; assumption.
Qed.

Lemma height_reference_handling_Value (f : string) (wb : Workbook) (t sm : list ParamRow) :
  result (height_reference_handling f wb t) = Value sm ->
  if all_same_ignoring_none [Height_Reference (MP_META wb); Height_Reference (TP_META wb);
                             Height_Reference (TOWER_META wb)]
  then exists v, head (omap id [Height_Reference (MP_META wb); Height_Reference (TP_META wb);
                                Height_Reference (TOWER_META wb)]) = Some v
                 /\ sm = set_Value "Height Reference" (VText v) t
  else sm = t /\ answer_height_reference wb <> "No".
Proof.
  unfold height_reference_handling.
  destruct (all_same_ignoring_none _); cbn [negb].
  - destruct (omap id _) as [|v l]; [discriminate |].
    cbn. intros H. inversion H. eauto.
  - cbn. destruct (String.eqb (answer_height_reference wb) "No") eqn:E; [discriminate |].
    cbn. intros H. inversion H. split; [reflexivity | apply String.eqb_neq, E].
Qed.

Lemma added_masses_events (f : string) (wb : Workbook) (off : Q) (sm : list ParamRow) :
  exists all,
    added_masses f wb off sm
    = mkM [WriteTable f "StructureOverview" "ALL_ADDED_MASSES" (TMasses all);
           WriteTable f "StructureOverview" "STRUCTURE_META" (TParams sm)] (Value tt).
Proof. eexists. reflexivity. Qed.

(** What a completed run went through. *)
Lemma completed_run (f : string) (wb : Workbook) (rho : Q) (cfg : string) :
  outcome (assemble_structure f wb rho cfg) = Completed ->
  exists mp tp tower sm MP_top TP_bot W off,
    result (quality_checks f wb) = Value (mp, tp, tower)
    /\ result (select_RNA f wb cfg) = Value tt
    /\ result (height_reference_handling f wb (blank_Values (STRUCTURE_META wb))) = Value sm
    /\ result (extract_ranges (map (insert_Affiliation "MP") mp)
                              (map (insert_Affiliation "TP") tp)) = Value (MP_top, TP_bot)
    /\ result (assemble_MP_TP f wb rho (map (insert_Affiliation "MP") mp)
                 (map (insert_Affiliation "TP") tp) MP_top TP_bot) = Value W
    /\ result (add_tower f (map (insert_Affiliation "TOWER") tower) W) = Value off
    /\ events (assemble_structure f wb rho cfg)
       = events (select_RNA f wb cfg)
         ++ events (height_reference_handling f wb (blank_Values (STRUCTURE_META wb)))
         ++ events (extract_ranges (map (insert_Affiliation "MP") mp)
                                   (map (insert_Affiliation "TP") tp))
         ++ events (assemble_MP_TP f wb rho (map (insert_Affiliation "MP") mp)
                      (map (insert_Affiliation "TP") tp) MP_top TP_bot)
         ++ events (add_tower f (map (insert_Affiliation "TOWER") tower) W)
         ++ events (added_masses f wb off (waterdepth_handling wb sm)).
Proof.
  intros Hc. apply outcome_Completed in Hc.
  pose proof Hc as Hrun. unfold assemble_structure in Hrun. cbv zeta in Hrun.
  apply bind_Value_inv in Hrun. destruct Hrun as ([[mp tp] tower] & Hq & Hrun & _).
  apply bind_Value_inv in Hrun. destruct Hrun as ([] & Hrna & Hrun & _).
  apply bind_Value_inv in Hrun. destruct Hrun as (sm & Hh & Hrest & _).
  pose proof (assemble_structure_passes f wb rho cfg mp tp tower sm Hq Hrna Hh) as Hev.
  cbv zeta in Hev.
  pose proof Hrest as Ht. unfold assemble_tables in Ht. cbv zeta in Ht.
  apply bind_Value_inv in Ht. destruct Ht as ([MP_top TP_bot] & Hranges & Ht & Ev1).
  apply bind_Value_inv in Ht. destruct Ht as (W & HW & Ht & Ev2).
  apply bind_Value_inv in Ht. destruct Ht as (off & Hoff & _ & Ev3).
  exists mp, tp, tower, sm, MP_top, TP_bot, W, off.
  repeat split; try assumption.
  rewrite Hev. cbn [events]. unfold assemble_tables. cbv zeta.
  rewrite Ev1, Ev2, Ev3. reflexivity.
Qed.

(** X11. The last table a completed run writes is STRUCTURE_META. It has
    the parameters of the table that was read, in their order, and every
    value that was read is gone: Seabed level is minus the water depth of
    the MP (empty without a water depth), Height Reference is the common
    height reference (empty when the references differ and the dialog was
    answered with Yes), and every other value is empty. *)
Theorem completed_run_writes_STRUCTURE_META (f : string) (wb : Workbook) (rho : Q)
    (cfg : string) :
  outcome (assemble_structure f wb rho cfg) = Completed ->
  exists sm,
    last (written (assemble_structure f wb rho cfg))
    = Some ("StructureOverview", "STRUCTURE_META", TParams sm)
    /\ map sm_Parameter sm = map sm_Parameter (STRUCTURE_META wb)
    /\ forall p, In p sm ->
         (sm_Parameter p = "Seabed level" ->
          sm_Value p = match Water_Depth (MP_META wb) with
                       | Some depth => VNum (- depth)
                       | None => VEmpty
                       end)
         /\ (sm_Parameter p = "Height Reference" ->
             sm_Value p
             = if all_same_ignoring_none
                    [Height_Reference (MP_META wb); Height_Reference (TP_META wb);
                     Height_Reference (TOWER_META wb)]
               then match omap id [Height_Reference (MP_META wb);
                                   Height_Reference (TP_META wb);
                                   Height_Reference (TOWER_META wb)] with
                    | v :: _ => VText v
                    | [] => VEmpty
                    end
               else VEmpty)
         /\ (sm_Parameter p <> "Seabed level" -> sm_Parameter p <> "Height Reference" ->
             sm_Value p = VEmpty).
Proof.
  intros Hc.
  destruct (completed_run f wb rho cfg Hc)
    as (mp & tp & tower & sm & MP_top & TP_bot & W & off & _ & _ & Hh & _ & _ & _ & Ev).
  exists (waterdepth_handling wb sm). split; [| split].
  - unfold written. rewrite Ev.
    destruct (added_masses_events f wb off (waterdepth_handling wb sm)) as [all Em].
    rewrite Em. cbn [events]. rewrite !app_assoc.
    change [?x; ?y] with ([x] ++ [y]). rewrite !app_assoc, omap_app. cbn [omap].
    apply last_snoc.
  - apply height_reference_handling_Value in Hh.
    unfold waterdepth_handling.
    assert (Hb : map sm_Parameter (blank_Values (STRUCTURE_META wb))
                 = map sm_Parameter (STRUCTURE_META wb)).
    { unfold blank_Values. rewrite map_map. reflexivity. }
    destruct (all_same_ignoring_none _).
    + destruct Hh as (v & _ & ->).
      destruct (Water_Depth (MP_META wb)); rewrite ?set_Value_Parameter; exact Hb.
    + destruct Hh as [-> _].
      destruct (Water_Depth (MP_META wb)); rewrite ?set_Value_Parameter; exact Hb.
  - assert (Hblank : forall p, In p (blank_Values (STRUCTURE_META wb)) -> sm_Value p = VEmpty).
    { intros p Hp. unfold blank_Values in Hp. apply in_map_iff in Hp.
      destruct Hp as (q & <- & _). reflexivity. }
    assert (Hsm : forall p, In p sm ->
              (sm_Parameter p = "Height Reference" ->
               sm_Value p
               = if all_same_ignoring_none
                      [Height_Reference (MP_META wb); Height_Reference (TP_META wb);
                       Height_Reference (TOWER_META wb)]
                 then match omap id [Height_Reference (MP_META wb);
                                     Height_Reference (TP_META wb);
                                     Height_Reference (TOWER_META wb)] with
                      | v :: _ => VText v
                      | [] => VEmpty
                      end
                 else VEmpty)
              /\ (sm_Parameter p <> "Height Reference" -> sm_Value p = VEmpty)).
    { apply height_reference_handling_Value in Hh.
      destruct (all_same_ignoring_none _).
      - destruct Hh as (v & Hv & ->). intros p Hp.
        destruct (omap id _) as [|v' l]; [discriminate |]. cbn in Hv. inversion Hv; subst v'.
        apply set_Value_lookup in Hp. destruct Hp as [[Hn Hv'] | [Hn Hp]].
        + split; [intros _; exact Hv' | intros Hne; contradiction].
        + split; [intros E; contradiction | intros _; apply Hblank, Hp].
      - destruct Hh as [-> _]. intros p Hp. split; intros _; apply Hblank, Hp. }
    intros p Hp. unfold waterdepth_handling in Hp.
    destruct (Water_Depth (MP_META wb)) as [depth|].
    + apply set_Value_lookup in Hp. destruct Hp as [[Hn Hv] | [Hn Hp]].
      * split; [intros _; exact Hv |]. split.
        -- intros E. rewrite Hn in E. discriminate.
        -- intros Hne. contradiction.
      * destruct (Hsm p Hp) as [H1 H2]. split; [intros E; contradiction |].
        split; [exact H1 | intros _; exact H2].
    + destruct (Hsm p Hp) as [H1 H2]. split.
      * intros E. apply H2. rewrite E. discriminate.
      * split; [exact H1 | intros _; exact H2].
Qed.

Lemma completed_run_writes_STRUCTURE_META_witness :
  exists sm,
    last (written (assemble_structure excel wb_overlap 7850 ""))
    = Some ("StructureOverview", "STRUCTURE_META", TParams sm)
    /\ map sm_Parameter sm = map sm_Parameter (STRUCTURE_META wb_overlap)
    /\ forall p, In p sm ->
         (sm_Parameter p = "Seabed level" ->
          sm_Value p = match Water_Depth (MP_META wb_overlap) with
                       | Some depth => VNum (- depth)
                       | None => VEmpty
                       end)
         /\ (sm_Parameter p = "Height Reference" ->
             sm_Value p
             = if all_same_ignoring_none
                    [Height_Reference (MP_META wb_overlap); Height_Reference (TP_META wb_overlap);
                     Height_Reference (TOWER_META wb_overlap)]
               then match omap id [Height_Reference (MP_META wb_overlap);
                                   Height_Reference (TP_META wb_overlap);
                                   Height_Reference (TOWER_META wb_overlap)] with
                    | v :: _ => VText v
                    | [] => VEmpty
                    end
               else VEmpty)
         /\ (sm_Parameter p <> "Seabed level" -> sm_Parameter p <> "Height Reference" ->
             sm_Value p = VEmpty).
Proof. exact (completed_run_writes_STRUCTURE_META excel wb_overlap 7850 "" eq_refl). Defined.






Lemma assemble_tables_onto (f : string) (wb : Workbook) (rho : Q)
    (mp tp tower W : list Row) (sm : list ParamRow) (a b t w : Row) :
  head mp = Some a -> last tp = Some b -> last tower = Some t ->
  result (assemble_MP_TP f wb rho (map (insert_Affiliation "MP") mp)
            (map (insert_Affiliation "TP") tp) (Top a) (Bottom b)) = Value W ->
  head W = Some w ->
  assemble_tables f wb rho mp tp tower sm
  = mkM (events (assemble_MP_TP f wb rho (map (insert_Affiliation "MP") mp)
                   (map (insert_Affiliation "TP") tp) (Top a) (Bottom b))
         ++ [WriteTable f "StructureOverview" "WHOLE_STRUCTURE"
               (TStructure (renumber (map (shift_Row (Top w - Bottom t))
                                          (map (insert_Affiliation "TOWER") tower) ++ W)))]
         ++ events (added_masses f wb (Top w - Bottom t) sm))
        (Value tt).
Proof.
  intros Ha Hb Ht HW Hw. unfold assemble_tables. cbv zeta.
  rewrite (extract_ranges_ends _ _ (insert_Affiliation "MP" a) (insert_Affiliation "TP" b))
    by (rewrite ?head_map, ?last_map, ?Ha, ?Hb; reflexivity).
  rewrite mret_bind. cbn [Top Bottom insert_Affiliation].
  rewrite (bind_Value _ _ _ HW).
  assert (Htower : add_tower f (map (insert_Affiliation "TOWER") tower) W
    = mkM [WriteTable f "StructureOverview" "WHOLE_STRUCTURE"
               (TStructure (renumber (map (shift_Row (Top w - Bottom t))
                                          (map (insert_Affiliation "TOWER") tower) ++ W)))]
          (Value (Top w - Bottom t))).
  { unfold add_tower. destruct W as [|w' W]; [discriminate |]. cbn in Hw. inversion Hw; subst w'.
    cbn [map first_item]. rewrite mret_bind.
    rewrite (last_item_map Bottom _ (insert_Affiliation "TOWER" t))
      by (rewrite last_map, Ht; reflexivity).
    rewrite mret_bind. reflexivity. }
  rewrite (bind_Value _ _ _ (f_equal result Htower)). rewrite Htower.
  cbn [events result]. reflexivity.
Qed.

Lemma written_app_events {A : Type} (l1 l2 : list Event) (r : Result A) :
  table_names (mkM (l1 ++ l2) r) = table_names (mkM l1 r) ++ table_names (mkM l2 r).
Proof. unfold table_names. rewrite written_mkM, map_app. reflexivity. Qed.



(** X14. When the TP overlaps the MP and the dialog is answered with Yes
    (grouted connection), the run shows the message under construction and
    completes without the transition piece: WHOLE_STRUCTURE is the
    renumbered table of the tower rows over the MP rows, the tower shifted
    onto the top of the MP, with no row of the TP, and no skirt table is
    written. *)
Theorem grouted_answer_leaves_TP_out (f : string) (wb : Workbook) (rho : Q)
    (cfg : string) (mp tp tower : list Row) (sm : list ParamRow) (a b t : Row) :
  result (quality_checks f wb) = Value (mp, tp, tower) ->
  result (select_RNA f wb cfg) = Value tt ->
  result (height_reference_handling f wb (blank_Values (STRUCTURE_META wb))) = Value sm ->
  head mp = Some a -> last tp = Some b -> last tower = Some t ->
  Bottom b < Top a ->
  answer_overlap wb = "Yes" ->
  outcome (assemble_structure f wb rho cfg) = Completed
  /\ In MsgUnderConstruction (messages (assemble_structure f wb rho cfg))
  /\ In ("StructureOverview", "WHOLE_STRUCTURE",
         TStructure (renumber (map (shift_Row (Top a - Bottom t))
                                   (map (insert_Affiliation "TOWER") tower)
                               ++ map (insert_Affiliation "MP") mp)))
        (written (assemble_structure f wb rho cfg))
  /\ table_names (assemble_structure f wb rho cfg)
     = table_names (select_RNA f wb cfg)
       ++ ["WHOLE_STRUCTURE"; "ALL_ADDED_MASSES"; "STRUCTURE_META"].
Proof.
  intros Hq Hr Hh Ha Hb Ht Hover Hyes.
  assert (HJ : assemble_MP_TP f wb rho (map (insert_Affiliation "MP") mp)
                 (map (insert_Affiliation "TP") tp) (Top a) (Bottom b)
               = mkM [MessageBox f (MsgOverlapping (- Bottom b + Top a));
                      MessageBox f MsgUnderConstruction]
                     (Value (map (insert_Affiliation "MP") mp))).
  { unfold assemble_MP_TP.
    assert (E1 : Qlt_bool (Top a) (Bottom b) = false) by (apply Qlt_bool_false_iff; lra).
    assert (E2 : Qlt_bool (Bottom b) (Top a) = true) by (apply Qlt_bool_iff; lra).
    rewrite E1, E2. cbv zeta. rewrite Hyes. reflexivity. }
  assert (Hw : head (map (insert_Affiliation "MP") mp) = Some (insert_Affiliation "MP" a))
    by (rewrite head_map, Ha; reflexivity).
  pose proof (assemble_tables_onto f wb rho mp tp tower _
                (waterdepth_handling wb sm) a b t _ Ha Hb Ht (f_equal result HJ) Hw) as Hrest.
  cbn [Top insert_Affiliation] in Hrest.
  pose proof (assemble_structure_passes f wb rho cfg mp tp tower sm Hq Hr Hh) as Hrun.
  cbv zeta in Hrun. rewrite Hrest in Hrun. cbn [events result] in Hrun.
  rewrite HJ in Hrun. cbn [events] in Hrun.
  rewrite Hrun. split; [reflexivity |]. split; [| split].
  - unfold messages. cbn [events]. apply list_elem_of_In, list_elem_of_omap.
    exists (MessageBox f MsgUnderConstruction). split; [| reflexivity].
    rewrite !elem_of_app. right. right. left.
    apply list_elem_of_further, list_elem_of_here.
  - unfold written. cbn [events]. apply list_elem_of_In, list_elem_of_omap.
    exists (WriteTable f "StructureOverview" "WHOLE_STRUCTURE"
              (TStructure (renumber (map (shift_Row (Top a - Bottom t))
                                         (map (insert_Affiliation "TOWER") tower)
                                     ++ map (insert_Affiliation "MP") mp)))).
    split; [| reflexivity].
    rewrite !elem_of_app. right. right. right. left. apply list_elem_of_here.
  - rewrite !written_app_events.
    assert (Eh : table_names
              (mkM (events (height_reference_handling f wb
                              (blank_Values (STRUCTURE_META wb)))) (Value ())) = []).
    { unfold table_names.
      pose proof (height_reference_handling_written f wb (blank_Values (STRUCTURE_META wb)))
        as Wh. unfold written in *. cbn [events]. rewrite Wh. reflexivity. }
    rewrite Eh. reflexivity.
Qed.

Lemma grouted_answer_leaves_TP_out_witness :
  outcome (assemble_structure excel wb_grouted 7850 "") = Completed
  /\ In MsgUnderConstruction (messages (assemble_structure excel wb_grouted 7850 ""))
  /\ In ("StructureOverview", "WHOLE_STRUCTURE",
         TStructure (renumber (map (shift_Row (10 - 20))
                                   (map (insert_Affiliation "TOWER")
                                        [mkRow None (Some 1) 100 20 4 4 30])
                               ++ map (insert_Affiliation "MP")
                                      [mkRow None (Some 1) 10 0 5 5 50])))
        (written (assemble_structure excel wb_grouted 7850 ""))
  /\ table_names (assemble_structure excel wb_grouted 7850 "")
     = table_names (select_RNA excel wb_grouted "")
       ++ ["WHOLE_STRUCTURE"; "ALL_ADDED_MASSES"; "STRUCTURE_META"].
Proof.
  apply (grouted_answer_leaves_TP_out excel wb_grouted 7850 ""
           [mkRow None (Some 1) 10 0 5 5 50] [mkRow None (Some 1) 12 8 5 5 50]
           [mkRow None (Some 1) 100 20 4 4 30]
           (set_Value "Height Reference" (VText "LAT")
                      (blank_Values (STRUCTURE_META wb_grouted)))
           (mkRow None (Some 1) 10 0 5 5 50) (mkRow None (Some 1) 12 8 5 5 50)
           (mkRow None (Some 1) 100 20 4 4 30)); reflexivity.
Defined.






(** The added masses. *)
Lemma insert_desc_Permutation (m : MassRow) (l : list MassRow) :
  Permutation (insert_desc m l) (m :: l).
Proof.
  induction l as [|x l IH]; [reflexivity |]. cbn [insert_desc].
  destruct (Qlt_bool (m_Top x) (m_Top m)); [reflexivity |].
  rewrite IH. apply perm_swap.
Qed.

Lemma sort_values_desc_Permutation (l : list MassRow) :
  Permutation (sort_values_desc l) l.
Proof.
  unfold sort_values_desc. induction l as [|x l IH]; [reflexivity |].
  cbn [foldr]. rewrite insert_desc_Permutation, IH. reflexivity.
Qed.

Lemma descending_cons (a : MassRow) (l : list MassRow) :
  descending (a :: l)
  <-> match l with [] => True | b :: _ => m_Top b <= m_Top a end /\ descending l.
Proof.
  destruct l as [|b l].
  - split; [| intros _ [|i] x y H1 H2; discriminate].
    intros _. split; [exact I |]. intros i x y H. discriminate.
  - split.
    + intros Hd. split; [exact (Hd 0%nat a b eq_refl eq_refl) |].
      intros i x y H1 H2. exact (Hd (S i) x y H1 H2).
    + intros [Hab Hd] [|i] x y H1 H2.
      * cbn in H1, H2. inversion H1; inversion H2; subst. exact Hab.
      * exact (Hd i x y H1 H2).
Qed.

Lemma insert_desc_descending (m : MassRow) (l : list MassRow) :
  descending l -> descending (insert_desc m l).
Proof.
  induction l as [|x l IH]; intros Hd.
  - apply descending_cons. split; [exact I | exact Hd].
  - cbn [insert_desc]. destruct (Qlt_bool (m_Top x) (m_Top m)) eqn:E.
    + apply descending_cons. split; [| exact Hd]. apply Qlt_bool_iff in E. lra.
    + apply Qlt_bool_false_iff in E.
      apply descending_cons in Hd. destruct Hd as [Hx Hd].
      apply descending_cons. split; [| exact (IH Hd)].
      destruct l as [|y l]; cbn [insert_desc]; [exact E |].
      destruct (Qlt_bool (m_Top y) (m_Top m)); [exact E | exact Hx].
Qed.

Lemma sort_values_desc_descending (l : list MassRow) : descending (sort_values_desc l).
Proof.
  unfold sort_values_desc. induction l as [|x l IH]; cbn [foldr].
  - intros i x y H. discriminate.
  - apply insert_desc_descending, IH.
Qed.

(** X16. The added masses: ALL_ADDED_MASSES holds exactly the rows of
    MP_MASSES, TP_MASSES and the shifted TOWER_MASSES, each with its
    affiliation and none of them lost or doubled, in descending order of
    Top [m]; STRUCTURE_META is written after it and nothing else
    happens. *)
Theorem added_masses_sorted (f : string) (wb : Workbook) (off : Q) (sm : list ParamRow) :
  exists ALL_MASSES,
    added_masses f wb off sm
    = mkM [WriteTable f "StructureOverview" "ALL_ADDED_MASSES" (TMasses ALL_MASSES);
           WriteTable f "StructureOverview" "STRUCTURE_META" (TParams sm)] (Value tt)
    /\ descending ALL_MASSES
    /\ Permutation ALL_MASSES
         (map (insert_mass_Affiliation "MP") (MP_MASSES wb)
          ++ map (insert_mass_Affiliation "TP") (TP_MASSES wb)
          ++ map (fun m => insert_mass_Affiliation "TOWER" (shift_MassRow off m))
                 (TOWER_MASSES wb)).
Proof.
  eexists. split; [reflexivity |]. split; [apply sort_values_desc_descending |].
  rewrite sort_values_desc_Permutation, map_map. reflexivity.
Qed.

(** ** The database elements *)

Import db_handling.





(** ** Further properties of [db_handling.py] *)

Import db_elements.

Lemma string_app_nil_l (t : string) : ("" ++ t)%string = t.
Proof. reflexivity. Qed.

Lemma string_app_cons (c : Ascii.ascii) (s t : string) :
  (String c s ++ t)%string = String c (s ++ t)%string.
Proof. reflexivity. Qed.

Lemma string_length_app (s t : string) :
  String.length (s ++ t)%string = (String.length s + String.length t)%nat.
Proof.
  induction s as [|c s IH]; [reflexivity |].
  rewrite string_app_cons. cbn [String.length Nat.add]. rewrite IH. reflexivity.
Qed.

Lemma string_app_inv_tail (s1 s2 t : string) :
  (s1 ++ t)%string = (s2 ++ t)%string -> s1 = s2.
Proof.
  revert s2. induction s1 as [|c s1 IH]; intros [|d s2] H;
    rewrite ?string_app_nil_l, ?string_app_cons in H.
  - reflexivity.
  - apply (f_equal String.length) in H. cbn [String.length] in H.
    rewrite string_length_app in H. exfalso. lia.
  - apply (f_equal String.length) in H. cbn [String.length] in H.
    rewrite string_length_app in H. exfalso. lia.
  - inversion H as [[Hc Hs]]. f_equal. apply IH. exact Hs.
Qed.




(** *** A stored table *)



(** *** write_db_element_data *)



(** *** What the element operations leave alone *)

Lemma run_lift {A : Type} (r : Res A) (w : World) : run (lift r) w = (r, w).
Proof. reflexivity. Qed.





Lemma run_create_replace (name : string) (df : DataFrame) (w : World) :
  run (create_db_table name df IfReplace) w
  = (Val tt, mkWorld (<[name := df]> (tables w)) (boxes w)).
Proof. unfold create_db_table. cbn [run]. destruct (tables w !! name); reflexivity. Qed.














(** *** add_db_element *)

Lemma run_session_bind {A B : Type} (m : SM A) (f : A -> SM B) (s : Session) :
  run_session (m ≫= f) s
  = match run_session m s with
    | (Val a, s') => run_session (f a) s'
    | (Exc e, s') => (Exc e, s')
    end.
Proof. reflexivity. Qed.

Lemma run_session_on_db {A : Type} (m : DBM A) (s : Session) :
  run_session (on_db m) s = (fst (run m (world s)), mkSession (snd (run m (world s))) (calls s)).
Proof. unfold on_db. cbn [run_session]. destruct (run m (world s)); reflexivity. Qed.

Lemma run_session_ret {A : Type} (a : A) (s : Session) :
  run_session (mret a) s = (Val a, s).
Proof. reflexivity. Qed.

Lemma run_session_call (c : ExcelCall) (s : Session) :
  run_session (excel_call c) s = (Val tt, mkSession (world s) (calls s ++ [c])).
Proof. reflexivity. Qed.

Ltac sm_step :=
  repeat (progress (rewrite ?run_session_bind, ?run_session_on_db, ?run_session_ret,
                      ?run_session_call, ?run_lift, ?run_create_replace;
                    cbn [fst snd world calls tables boxes])).

Section AddElement.
Variable py_str : Cell -> string.

(** X23. When META already lists the identifier of the new META row,
    [add_db_element] shows the message about the identifier, answers False
    and leaves the database as it was. *)
Theorem add_db_element_known_identifier (s : Session)
    (Structure_data added_masses_data Meta_infos META : DataFrame)
    (Identifier : Cell) (more ids : list Cell) :
  run (load_db_table "META") (world s) = (Val META, world s) ->
  column "Identifier" Meta_infos = Val (Identifier :: more) ->
  column "Identifier" META = Val ids ->
  existsb (Cell_eqb Identifier) ids = true ->
  run_session (add_db_element py_str Structure_data added_masses_data Meta_infos) s
  = (Val false, mkSession (world s) (calls s ++ [ShowIdentifierInDatabase])).
Proof.
  intros Hload Hnew Hids Hin. unfold add_db_element.
  sm_step. rewrite Hload. sm_step. rewrite Hnew. cbn [item_0]. sm_step.
  rewrite Hids. sm_step. rewrite Hin. sm_step.
  destruct (world s); reflexivity.
Qed.

End AddElement.

Lemma add_db_element_known_identifier_witness :
  run_session (add_db_element (fun _ => "") data_example masses_example Meta_infos_taken)
              session_example
  = (Val false, mkSession db_example [ShowIdentifierInDatabase]).
Proof.
  apply (add_db_element_known_identifier (fun _ => "") session_example data_example
           masses_example Meta_infos_taken META_example (CText "MP_C") []
           [CText "MP_A"; CText "MP_C"]); reflexivity.
Defined.







Section AddElement2.
Variable py_str : Cell -> string.





End AddElement2.



(** *** delete_db_element *)







Section RoundTrip.
Variable py_str : Cell -> string.


End RoundTrip.


(** *** load_DATA and delete_data *)








